(** * uns-cli: the transaction lifecycle of a command, embedded in Rocq

    A shallow embedding of the command layer of the UNS command line client:
    the input validators of [utils.ts], the helpers of [BaseCommand]
    (confirmation polling, target resolution, nonce and passphrase
    collection) and the [do] bodies of the commands built on them.

    JavaScript strings are modelled by [string] (one character per code
    unit), JavaScript integers by [Z], [undefined] by [None].  A thrown
    exception is a value of [exn]; an [async] method is a function of the
    history of the run (the list of requests already made, most recent
    first) returning its outcome together with the extended history. *)

From Equations Require Import Equations.
From Stdlib Require Import List String Ascii ZArith Bool Lia Arith.
From Stdlib Require Import DecimalString DecimalPos DecimalZ.
Import ListNotations.

Local Open Scope string_scope.
Local Open Scope Z_scope.

Set Implicit Arguments.

(** ** Exceptions *)

(** The classes of the exceptions the modelled code throws or catches, with
    their message. *)
Inductive exn : Type :=
| Error (message : string)
| TypeError (message : string)
| HttpNotFoundError (message : string).

(** A synchronous function that may throw. *)
Definition result (A : Type) : Type := (exn + A)%type.

Definition Ok {A : Type} (a : A) : result A := inr a.
Definition Throw {A : Type} (e : exn) : result A := inl e.

(** ** JavaScript strings *)

Module JS.

(** Truthiness of a string: only the empty string is falsy. *)
Definition truthy (s : string) : bool :=
  match s with
  | EmptyString => false
  | String _ _ => true
  end.

(** Truthiness of a possibly undefined string. *)
Definition truthy_opt (s : option string) : bool :=
  match s with
  | None => false
  | Some s => truthy s
  end.

(** [s.split(sep)] for a separator of one character: the pieces between
    the occurrences of [sep], empty pieces included. *)
Fixpoint split (sep : ascii) (s : string) : list string :=
  match s with
  | EmptyString => [EmptyString]
  | String c rest =>
      if Ascii.eqb c sep then EmptyString :: split sep rest
      else match split sep rest with
           | [] => [String c EmptyString]
           | piece :: pieces => String c piece :: pieces
           end
  end.

(** [s.startsWith(p)]. *)
Definition startsWith (p s : string) : bool := String.prefix p s.

(** The character class [[a-zA-Z0-9]]. *)
Definition alnum (c : ascii) : bool :=
  let n := nat_of_ascii c in
  ((97 <=? n) && (n <=? 122) || (65 <=? n) && (n <=? 90)
   || (48 <=? n) && (n <=? 57))%nat.

Fixpoint take_while (p : ascii -> bool) (s : string) : string :=
  match s with
  | EmptyString => EmptyString
  | String c rest => if p c then String c (take_while p rest) else EmptyString
  end.

(** [s.match(/[a-zA-Z0-9]+/)]: the first maximal run of alphanumeric
    characters (element 0 of the match array), or [None] for [null] when
    [s] has no such character. *)
Fixpoint match_alnum (s : string) : option string :=
  match s with
  | EmptyString => None
  | String c rest =>
      if alnum c then Some (String c (take_while alnum rest))
      else match_alnum rest
  end.

(** [BigNumber.toString()] of an integer: its decimal notation. *)
Definition toString (n : Z) : string := NilZero.string_of_int (Z.to_int n).

End JS.

(** ** utils.ts: validators *)

(** [checkUnikIdFormat]: [unikid && unikid.length === 64]. *)
Definition checkUnikIdFormat (unikid : string) : result unit :=
  let valid := JS.truthy unikid && (String.length unikid =? 64)%nat in
  if negb valid then Throw (Error "Unikid parameter does not match expected format")
  else Ok tt.

(** [checkUnikPropertyFormat]:
    [propertyKey && propertyKey.match(/[a-zA-Z0-9]+/)[0] === propertyKey].
    Indexing the [null] that [match] returns when nothing matches throws a
    [TypeError]. *)
Definition checkUnikPropertyFormat (propertyKey : string) : result unit :=
  if negb (JS.truthy propertyKey) then
    Throw (Error ("Property " ++ propertyKey ++ " does not match expected format"))
  else
    match JS.match_alnum propertyKey with
    | None => Throw (TypeError "Cannot read property '0' of null")
    | Some m0 =>
        let valid := String.eqb m0 propertyKey in
        if negb valid then
          Throw (Error ("Property " ++ propertyKey ++ " does not match expected format"))
        else Ok tt
    end.

(** [checkPassphraseFormat]: [passphrase && passphrase.split(" ").length === 12]. *)
Definition checkPassphraseFormat (passphrase : string) : result unit :=
  let valid :=
    JS.truthy passphrase && (List.length (JS.split " " passphrase) =? 12)%nat in
  if negb valid then Throw (Error "Wrong pass phrase format")
  else Ok tt.

(** [BaseCommand.checkDataConsistency(...heights)]:
    [heights.every((v) => v === heights[0])]. *)
Definition checkDataConsistency (heights : list string) : result unit :=
  if negb (forallb (fun v =>
                      match nth_error heights 0 with
                      | Some h0 => String.eqb v h0
                      | None => false
                      end) heights)
  then Throw (Error "Unable to read right now. Please retry.")
  else Ok tt.

(** ** Data exchanged with the network *)

(** Chain meta data attached to the replies of a node. *)
Record ChainMeta : Type := {
  cm_height : string;
  cm_network : string
}.

(** A transaction as a node reports it. *)
Record Transaction : Type := {
  tx_id : string;
  tx_confirmations : Z
}.

(** A composed (signed) transaction structure, [ITransactionData]; its
    [id] may be undefined. *)
Record ITransactionData : Type := {
  td_id : option string;
  td_fee : Z;
  td_nonce : string;
  td_asset : string
}.

Record Unik : Type := {
  unik_ownerId : string;
  unik_chainmeta : ChainMeta;
  unik_transactions : list string
}.

Record Wallet : Type := {
  w_address : string;
  w_publicKey : string;
  w_secondPublicKey : option string;
  w_isDelegate : bool
}.

(** The reply of [resolveUnikName]: [{ error?, data?, chainmeta? }]. *)
Record ResolvedData : Type := {
  rd_unikid : string;
  rd_ownerAddress : string
}.

Record Resolved : Type := {
  res_error : option exn;
  res_data : option ResolvedData;
  res_chainmeta : option ChainMeta
}.

(** [UnikInfos], the result of target resolution. *)
Record UnikInfos : Type := {
  ui_unikid : string;
  ui_ownerAddress : string;
  ui_chainmeta : option ChainMeta;
  ui_transactions : option (list string)
}.

Record CryptoAccountPassphrases : Type := {
  first : string;
  second : option string
}.

(** The parsed flags of a command ([Record<string, any>]), on the flags
    the modelled commands read. *)
Record Flags : Type := {
  flag_unikid : string;
  flag_passphrase : option string;
  flag_second_passphrase : option string;
  flag_fee : Z;
  flag_await : Z;
  flag_confirmations : Z;
  flag_properties : list string
}.

(** The properties of a token update: keys in insertion order, [None] for
    a [null] value. *)
Definition Properties : Type := list (string * option string).

(** The output of a command. *)
Record CommandOutput : Type := {
  out_id : option string;
  out_transaction : string;
  out_confirmations : Z
}.

(** ** Requests, histories and services *)

(** What a command does to the outside world: network requests, prompts
    and the lines it logs. *)
Inductive Event : Type :=
| PromptPassphrase
| PromptSecondPassphrase
| GetTransaction (transactionId : string) (timeout : Z)
| GetUnikById (unikid : string)
| ResolveUnikName (target : string)
| GetUniknameWalletAddress (unikname : string)
| GetWallet (address : string)
| GetNonce (address : string)
| SendTransaction (transaction : ITransactionData)
| Log (message : string).

(** The requests made so far, most recent first. *)
Definition History : Type := list Event.

(** The collaborators of a command: the node behind [unsClientWrapper], the
    name resolution service and the terminal.  Each answers a request in
    view of everything that happened before it, so successive identical
    requests may get different answers; each may throw. *)
Record Services : Type := {
  svc_getTransaction : History -> string -> Z -> result (option Transaction);
  svc_getUnikById : History -> string -> result Unik;
  svc_getWallet : History -> string -> result (option Wallet);
  svc_getNonce : History -> string -> result Z;
  svc_sendTransaction : History -> ITransactionData -> result (option string);
  svc_resolveUnikName : History -> string -> result Resolved;
  svc_getUniknameWalletAddress : History -> string -> result string;
  svc_promptPassphrase : History -> result string;
  svc_promptSecondPassphrase : History -> result string
}.

(** ** The monad of asynchronous methods *)

Definition M (A : Type) : Type := History -> result A * History.

Definition ret {A : Type} (a : A) : M A := fun h => (Ok a, h).

Definition throw {A : Type} (e : exn) : M A := fun h => (Throw e, h).

Definition bind {A B : Type} (m : M A) (k : A -> M B) : M B :=
  fun h =>
    match m h with
    | (inl e, h') => (inl e, h')
    | (inr a, h') => k a h'
    end.

(** A synchronous call that may throw. *)
Definition lift {A : Type} (r : result A) : M A := fun h => (r, h).

(** A request to a collaborator: it is recorded, then answered. *)
Definition request {A : Type} (ev : Event) (answer : History -> result A) : M A :=
  fun h => (answer h, ev :: h).

(** [try { m } catch (e) { handler e }]. *)
Definition try_catch {A : Type} (m : M A) (handler : exn -> M A) : M A :=
  fun h =>
    match m h with
    | (inl e, h') => handler e h'
    | (inr a, h') => (inr a, h')
    end.

Declare Scope cmd_scope.
Delimit Scope cmd_scope with cmd.
Notation "x <- m ;; k" := (bind m (fun x => k))
  (at level 100, m at next level, right associativity) : cmd_scope.
Notation "m ;;; k" := (bind m (fun _ => k))
  (at level 100, right associativity) : cmd_scope.
Local Open Scope cmd_scope.

(** Counting the requests of a kind in a history. *)
Definition isGetTransaction (ev : Event) : bool :=
  match ev with GetTransaction _ _ => true | _ => false end.

Definition isGetWallet (ev : Event) : bool :=
  match ev with GetWallet _ => true | _ => false end.

Definition isSendTransaction (ev : Event) : bool :=
  match ev with SendTransaction _ => true | _ => false end.

Definition isGetUnikById (ev : Event) : bool :=
  match ev with GetUnikById _ => true | _ => false end.

Definition isNameLookup (ev : Event) : bool :=
  match ev with
  | ResolveUnikName _ | GetUniknameWalletAddress _ => true
  | _ => false
  end.

Definition count (p : Event -> bool) (h : History) : nat :=
  List.length (filter p h).

(** A method adds [n] requests of the kind [p] to every history, however
    it ends. *)
Definition adds {A : Type} (p : Event -> bool) (n : nat) (m : M A) : Prop :=
  forall h, count p (snd (m h)) = (n + count p h)%nat.

(** ** BaseCommand *)

Section BaseCommand.

Variable svc : Services.

(** [transactionFromNetwork?.confirmations ? transactionFromNetwork.confirmations : 0] *)
Definition confirmationsOf (transactionFromNetwork : option Transaction) : Z :=
  match transactionFromNetwork with
  | Some t => if tx_confirmations t =? 0 then 0 else tx_confirmations t
  | None => 0
  end.

Definition getTransaction (transactionId : string) (timeout : Z)
  : M (option Transaction) :=
  request (GetTransaction transactionId timeout)
          (fun h => svc_getTransaction svc h transactionId timeout).

(** [waitTransactionConfirmations]: query, and query again with one retry
    less while the confirmations are short of the expected ones and
    retries are left.  The recursion is on [numberOfRetry], which
    decreases as long as it is positive. *)
Equations? waitTransactionConfirmations
    (blockTime : Z) (transactionId : string)
    (numberOfRetry expectedConfirmations : Z) (h : History)
  : result (option Transaction) * History
  by wf (Z.to_nat numberOfRetry) lt :=
  waitTransactionConfirmations blockTime transactionId
                               numberOfRetry expectedConfirmations h
    with getTransaction transactionId (blockTime * 1000) h => {
    | (inl e, h') := (inl e, h');
    | (inr transactionFromNetwork, h')
        with Sumbool.sumbool_of_bool
               ((confirmationsOf transactionFromNetwork <? expectedConfirmations)
                && (numberOfRetry >? 0)) => {
        | left _ :=
            waitTransactionConfirmations blockTime transactionId
                                         (numberOfRetry - 1)
                                         expectedConfirmations h';
        | right _ := (inr transactionFromNetwork, h') } }.
Proof.
  apply andb_prop in e. destruct e as [_ Hpos].
  apply Z.gtb_lt in Hpos. lia.
Qed.

(** *** Pure collaborators

    Functions of [utils.ts] and of the crypto library whose code is
    outside the modelled files: the two recognisers of a target, the
    derivation of a wallet and of an address from a passphrase. *)
Variable isTokenId : string -> bool.
Variable isDid : string -> bool.
Variable getWalletFromPassphrase : string -> Wallet.
Variable fromPassphrase : string -> string.

(** [--verbose]. *)
Variable verbose : bool.

Definition log (message : string) : M unit :=
  request (Log message) (fun _ => Ok tt).

(** [info]: logs in verbose mode only. *)
Definition info (message : string) : M unit :=
  if verbose then log message else ret tt.

Definition getUnikById (unikid : string) : M Unik :=
  request (GetUnikById unikid) (fun h => svc_getUnikById svc h unikid).

Definition resolveUnikName (target : string) : M Resolved :=
  request (ResolveUnikName target) (fun h => svc_resolveUnikName svc h target).

Definition getWallet (address : string) : M (option Wallet) :=
  request (GetWallet address) (fun h => svc_getWallet svc h address).

Definition getNonce (address : string) : M Z :=
  request (GetNonce address) (fun h => svc_getNonce svc h address).

Definition getPassphraseFromUser : M string :=
  request PromptPassphrase (svc_promptPassphrase svc).

Definition getSecondPassphraseFromUser : M string :=
  request PromptSecondPassphrase (svc_promptSecondPassphrase svc).

(** [targetResolve(flags, target)]; the flags only carry the network
    settings the name resolution uses. *)
Definition targetResolve (target : string) : M UnikInfos :=
  if isTokenId target then
    unikInfos <- getUnikById target ;;
    ret {| ui_unikid := target;
           ui_ownerAddress := unik_ownerId unikInfos;
           ui_chainmeta := Some (unik_chainmeta unikInfos);
           ui_transactions := Some (unik_transactions unikInfos) |}
  else if isDid target then
    resolved <- resolveUnikName target ;;
    match res_error resolved with
    | Some e => throw e
    | None =>
        match res_data resolved with
        | None => throw (TypeError "Cannot read property 'unikid' of undefined")
        | Some data =>
            ret {| ui_unikid := rd_unikid data;
                   ui_ownerAddress := rd_ownerAddress data;
                   ui_chainmeta := res_chainmeta resolved;
                   ui_transactions := None |}
        end
    end
  else throw (Error "Unik target argument does not match expected format.").

(** [getNextWalletNonceFromPassphrase]:
    [BigNumber.make(await getNonce(wallet.address)).plus(1).toString()]. *)
Definition getNextWalletNonceFromPassphrase (passphrase : string) : M string :=
  let wallet := getWalletFromPassphrase passphrase in
  nonce <- getNonce (w_address wallet) ;;
  ret (JS.toString (nonce + 1)).

(** [applyWalletPredicate]: a wallet that is not found answers [false]. *)
Definition applyWalletPredicate (recipientId : string)
           (predicate : option Wallet -> bool) : M bool :=
  try_catch
    (wallet <- getWallet recipientId ;;
     ret (predicate wallet))
    (fun e =>
       match e with
       | HttpNotFoundError _ =>
           info ("Wallet " ++ recipientId ++ " not found.") ;;;
           ret false
       | _ => throw e
       end).

(** [hasSecondPassphrase], with the predicate
    [(wallet) => wallet && !!wallet.secondPublicKey]. *)
Definition hasSecondPassphrase (passphrase : string) : M bool :=
  let cryptoAccountAddress := fromPassphrase passphrase in
  applyWalletPredicate cryptoAccountAddress
    (fun wallet =>
       match wallet with
       | Some w => JS.truthy_opt (w_secondPublicKey w)
       | None => false
       end).

(** [askForPassphrases(flags, checkSecondPassphrase)]. *)
Definition askForPassphrases (flags : Flags)
           (checkSecondPassphrase : bool) : M CryptoAccountPassphrases :=
  let flag_second := flag_second_passphrase flags in
  passphrase <-
    match flag_passphrase flags with
    | Some p => if JS.truthy p then ret p else getPassphraseFromUser
    | None => getPassphraseFromUser
    end ;;
  lift (checkPassphraseFormat passphrase) ;;;
  secondPassphrase <-
    (if checkSecondPassphrase then
       secondPassphrase <-
         (if negb (JS.truthy_opt flag_second) then
            required <- hasSecondPassphrase passphrase ;;
            if required then
              answer <- getSecondPassphraseFromUser ;;
              ret (Some answer)
            else ret flag_second
          else ret flag_second) ;;
       match secondPassphrase with
       | Some s =>
           if JS.truthy s then
             lift (checkPassphraseFormat s) ;;;
             ret secondPassphrase
           else ret secondPassphrase
       | None => ret secondPassphrase
       end
     else ret flag_second) ;;
  ret {| first := passphrase; second := secondPassphrase |}.

End BaseCommand.

(** *** Histories of a polling *)

(** The history after [k] more queries for a transaction. *)
Definition polls (blockTime : Z) (transactionId : string) (k : nat) (h : History)
  : History :=
  (repeat (GetTransaction transactionId (blockTime * 1000)) k ++ h)%list.

(** The answer of the node to the query number [k] (from 0) of a polling
    that starts in the history [h]. *)
Definition answer (svc : Services) (blockTime : Z) (transactionId : string)
           (h : History) (k : nat) : result (option Transaction) :=
  svc_getTransaction svc (polls blockTime transactionId k h)
                     transactionId (blockTime * 1000).

(** ** Commands *)

Section Commands.

Variable svc : Services.
Variable getWalletFromPassphrase : string -> Wallet.
Variable fromPassphrase : string -> string.
Variable verbose : bool.

(** [WriteCommand.sendAndWaitConfirmationsIfNeeded], whose code is outside
    the modelled files: the step that broadcasts the transaction. *)
Variable sendAndWaitConfirmationsIfNeeded :
  ITransactionData -> Flags -> M (option Transaction).

(** *** PropertiesUpdateCommand *)

(** The abstract [getProperties] of the concrete command. *)
Variable getProperties : Flags -> result Properties.

(** The transaction builder,
    [createNFTUpdateTransaction(unikid, properties, fee, nonce, first, second)]. *)
Variable createNFTUpdateTransaction :
  string -> Properties -> Z -> string -> string -> option string ->
  ITransactionData.

Definition PropertiesUpdateCommand_do (flags : Flags) : M CommandOutput :=
  lift (checkUnikIdFormat (flag_unikid flags)) ;;;
  properties <- lift (getProperties flags) ;;
  passphrases <- askForPassphrases svc fromPassphrase verbose flags true ;;
  nonce <- getNextWalletNonceFromPassphrase svc getWalletFromPassphrase
             (first passphrases) ;;
  let transactionStruct :=
    createNFTUpdateTransaction (flag_unikid flags) properties (flag_fee flags)
                               nonce (first passphrases) (second passphrases) in
  match td_id transactionStruct with
  | Some id =>
      if JS.truthy id then
        log ("Binding new propert"
             ++ (if (1 <? List.length properties)%nat then "ies" else "y")
             ++ " to UNIK.") ;;;
        finalTransaction <-
          sendAndWaitConfirmationsIfNeeded transactionStruct flags ;;
        ret {| out_id := Some (flag_unikid flags);
               out_transaction := id;
               out_confirmations :=
                 match finalTransaction with
                 | Some t => tx_confirmations t
                 | None => 0
                 end |}
      else throw (Error "Transaction id can't be undefined")
  | None => throw (Error "Transaction id can't be undefined")
  end.

(** *** AbstractDelegateVoteCreateCommand *)

Variable getVotes : string -> list string.

(** [createVoteTransaction(votes, fee, nonce, first, second)]. *)
Variable createVoteTransaction :
  list string -> Z -> string -> string -> option string ->
  result ITransactionData.

Definition getUniknameWalletAddress (delegateId : string) : M string :=
  request (GetUniknameWalletAddress delegateId)
          (fun h => svc_getUniknameWalletAddress svc h delegateId).

Definition resolveDelegateWalletPublicKey (delegateId : string) : M string :=
  walletAddress <-
    (if JS.truthy delegateId && JS.startsWith "@" delegateId then
       getUniknameWalletAddress delegateId
     else
       lift (checkUnikIdFormat delegateId) ;;;
       unik <- getUnikById svc delegateId ;;
       ret (unik_ownerId unik)) ;;
  wallet <- getWallet svc walletAddress ;;
  match wallet with
  | None => throw (Error "Delegate not found")
  | Some w =>
      if negb (w_isDelegate w) then
        throw (Error "This Unikname is not registered as delegate.")
      else ret (w_publicKey w)
  end.

(** The explorer address of a transaction, for the message of a
    transaction that was not found. *)
Variable getExplorerUrl : string.

(** [do(flags, args)] with [args.id] the delegate.  The progress display
    of [actionStart] and [actionStop] is left out. *)
Definition AbstractDelegateVoteCreateCommand_do
           (flags : Flags) (args_id : string) : M CommandOutput :=
  delegatePublicKey <- resolveDelegateWalletPublicKey args_id ;;
  passphrases <- askForPassphrases svc fromPassphrase verbose flags true ;;
  nonce <- getNextWalletNonceFromPassphrase svc getWalletFromPassphrase
             (first passphrases) ;;
  transactionStruct <-
    lift (createVoteTransaction (getVotes delegatePublicKey) (flag_fee flags)
                                nonce (first passphrases) (second passphrases)) ;;
  match td_id transactionStruct with
  | Some id =>
      if JS.truthy id then
        transactionFromNetwork <-
          sendAndWaitConfirmationsIfNeeded transactionStruct flags ;;
        match transactionFromNetwork with
        | None =>
            throw (Error ("Transaction not found yet, the network can be slow. Check this url in a while: "
                          ++ getExplorerUrl ++ "/transaction/" ++ id))
        | Some t =>
            ret {| out_id := None;
                   out_transaction := id;
                   out_confirmations := tx_confirmations t |}
        end
      else throw (Error "Transaction id can't be undefined")
  | None => throw (Error "Transaction id can't be undefined")
  end.

End Commands.

(** *** SetPropertiesCommand *)

Module SetProperties.

(** [prop.indexOf(":")] with the two [substr] around it: the text before
    and after the first separator, [None] when there is none. *)
Fixpoint cut (sep : ascii) (s : string) : option (string * string) :=
  match s with
  | EmptyString => None
  | String c rest =>
      if Ascii.eqb c sep then Some (EmptyString, rest)
      else match cut sep rest with
           | Some (key, value) => Some (String c key, value)
           | None => None
           end
  end.

(** [properties[key] = value] on an object with string keys. *)
Fixpoint assign (key : string) (value : option string) (properties : Properties)
  : Properties :=
  match properties with
  | [] => [(key, value)]
  | (k, v) :: rest =>
      if String.eqb k key then (key, value) :: rest
      else (k, v) :: assign key value rest
  end.

Fixpoint parseProperties_from (props : list string) (properties : Properties)
  : result Properties :=
  match props with
  | [] => Ok properties
  | prop :: rest =>
      match cut ":" prop with
      | None => Throw (Error ("Property " ++ prop ++ ", doesn't contain :"))
      | Some (key, value) =>
          parseProperties_from rest (assign key (Some value) properties)
      end
  end.

Definition parseProperties (props : list string) : result Properties :=
  parseProperties_from props [].

Definition flagsConsistencyMessage (flags : Flags) : string :=
  "Flags consistency error. --await (" ++ JS.toString (flag_await flags)
  ++ ") should be strictly higher than --confirmations ("
  ++ JS.toString (flag_confirmations flags) ++ ")".

(** The first statement of [do], under the comment "Check flags
    consistency": [if (flags.await <= flags.confirmations) throw ...]. *)
Definition checkFlagsConsistency (flags : Flags) : result unit :=
  if flag_await flags <=? flag_confirmations flags then
    Throw (Error (flagsConsistencyMessage flags))
  else Ok tt.

(** The error of a transaction the network refuses. *)
Definition rejected (errors : string) : exn :=
  Error ("Transaction not accepted. Caused by: " ++ errors).

Section Do.

Variable svc : Services.

(** [this.api.getBlockTime()] and [this.api.getVersion()]. *)
Variable getBlockTime : Z.
Variable getVersion : Z.

(** The builder of this command,
    [createNFTUpdateTransaction(client, tokenId, properties, fees, networkVersion, passphrase)]. *)
Variable createNFTUpdateTransaction :
  string -> Properties -> Z -> Z -> string -> ITransactionData.

(** [this.api.sendTransaction]; the answer is the [errors] of the
    reply, rendered by [JSON.stringify], when it has some. *)
Definition sendTransaction (transaction : ITransactionData) : M (option string) :=
  request (SendTransaction transaction)
          (fun h => svc_sendTransaction svc h transaction).

(** [do(flags)].  An undefined transaction id reaches the node as the
    text [undefined]; [this.log(a, b)] writes [a], a space and [b]. *)
Definition do (flags : Flags) : M unit :=
  lift (checkFlagsConsistency flags) ;;;
  lift (checkUnikIdFormat (flag_unikid flags)) ;;;
  passphrase <-
    match flag_passphrase flags with
    | Some p => if JS.truthy p then ret p else getPassphraseFromUser svc
    | None => getPassphraseFromUser svc
    end ;;
  lift (checkPassphraseFormat passphrase) ;;;
  properties <- lift (parseProperties (flag_properties flags)) ;;
  let transactionStruct :=
    createNFTUpdateTransaction (flag_unikid flags) properties (flag_fee flags)
                               getVersion passphrase in
  sendResult <- sendTransaction transactionStruct ;;
  match sendResult with
  | Some errors =>
      throw (rejected errors)
  | None =>
      finalTransaction <-
        waitTransactionConfirmations svc getBlockTime
          (match td_id transactionStruct with
           | Some id => id
           | None => "undefined"
           end)
          (flag_await flags) (flag_confirmations flags) ;;
      log (String "010"%char "unikid:  " ++ flag_unikid flags) ;;;
      match finalTransaction with
      | None => throw (TypeError "Cannot read property 'id' of undefined")
      | Some t =>
          log ("transaction:  " ++ tx_id t) ;;;
          log ("confirmations:  " ++ JS.toString (tx_confirmations t))
      end
  end.

End Do.

End SetProperties.

(** ** The wording of the specification *)

Module Spec.

(** White space: space, tab, line feed, vertical tab, form feed, carriage
    return. *)
Definition whitespace (c : ascii) : bool :=
  let n := nat_of_ascii c in
  ((n =? 32) || (9 <=? n) && (n <=? 13))%nat.

(** The whitespace-delimited tokens of a string: its maximal runs of
    characters that are not white space. *)
Fixpoint whitespace_tokens (s : string) : list string :=
  match s with
  | EmptyString => []
  | String c rest =>
      if whitespace c then whitespace_tokens rest
      else
        match rest with
        | EmptyString => [String c EmptyString]
        | String c' _ =>
            if whitespace c' then String c EmptyString :: whitespace_tokens rest
            else match whitespace_tokens rest with
                 | w :: ws => String c w :: ws
                 | [] => [String c EmptyString]
                 end
        end
  end.

(** All the values of a list agree. *)
Definition all_equal (heights : list string) : Prop :=
  forall x y, In x heights -> In y heights -> x = y.

End Spec.

(** Every character of a string satisfies [p]. *)
Fixpoint string_forallb (p : ascii -> bool) (s : string) : bool :=
  match s with
  | EmptyString => true
  | String c rest => p c && string_forallb p rest
  end.

(** The occurrences of a character in a string. *)
Fixpoint occurrences (c : ascii) (s : string) : nat :=
  match s with
  | EmptyString => 0%nat
  | String d rest => ((if Ascii.eqb d c then 1 else 0) + occurrences c rest)%nat
  end.

(** ** Test doubles *)

Module Doubles.

Definition tab : string := String "009"%char EmptyString.

(** Twelve words separated by tabs. *)
Definition tabbed : string :=
  "one" ++ tab ++ "two" ++ tab ++ "three" ++ tab ++ "four" ++ tab ++ "five"
  ++ tab ++ "six" ++ tab ++ "seven" ++ tab ++ "eight" ++ tab ++ "nine"
  ++ tab ++ "ten" ++ tab ++ "eleven" ++ tab ++ "twelve".

(** Eleven words, two spaces before the last one. *)
Definition doubled : string :=
  "one two three four five six seven eight nine ten  eleven".

Definition twelve : string :=
  "one two three four five six seven eight nine ten eleven twelve".

Definition wallet_of (passphrase : string) : Wallet :=
  {| w_address := "address of " ++ passphrase;
     w_publicKey := "key of " ++ passphrase;
     w_secondPublicKey := None;
     w_isDelegate := true |}.

Definition address_of (passphrase : string) : string :=
  "address of " ++ passphrase.

Definition unik : Unik :=
  {| unik_ownerId := "owner";
     unik_chainmeta := {| cm_height := "100"; cm_network := "devnet" |};
     unik_transactions := [] |}.

(** A node that answers the k-th query for a transaction (counted from 0)
    with the confirmations [confs k], and an account with nonce [nonce]. *)
Definition node (confs : nat -> option Z) (nonce : Z) : Services :=
  {| svc_getTransaction := fun h id _ =>
       match confs (count isGetTransaction h) with
       | Some c => Ok (Some {| tx_id := id; tx_confirmations := c |})
       | None => Ok None
       end;
     svc_getUnikById := fun _ _ => Ok unik;
     svc_getWallet := fun _ address => Ok (Some (wallet_of address));
     svc_getNonce := fun _ _ => Ok nonce;
     svc_sendTransaction := fun _ _ => Ok None;
     svc_resolveUnikName := fun _ _ =>
       Ok {| res_error := None;
             res_data := Some {| rd_unikid := "unikid"; rd_ownerAddress := "owner" |};
             res_chainmeta := None |};
     svc_getUniknameWalletAddress := fun _ _ => Ok "owner";
     svc_promptPassphrase := fun _ => Ok twelve;
     svc_promptSecondPassphrase := fun _ => Ok twelve |}.

(** A node that reports the confirmations of a list on successive
    queries, and no transaction after them. *)
Definition scripted (confs : list Z) : Services := node (nth_error confs) 0.

(** A node that reports the same confirmations on every query. *)
Definition constant (c : Z) : Services := node (fun _ => Some c) 0.

(** Recognisers of a target: 64 characters, or a leading [@]. *)
Definition isTokenId (s : string) : bool := (String.length s =? 64)%nat.
Definition isDid (s : string) : bool := JS.startsWith "@" s.

Definition flags (await confirmations : Z) : Flags :=
  {| flag_unikid := "5f96dd359ab300e2c702a54760f4d74a11db076aa17575179d36e06d75c96511";
     flag_passphrase := Some twelve;
     flag_second_passphrase := Some "not twelve words";
     flag_fee := 100000000;
     flag_await := await;
     flag_confirmations := confirmations;
     flag_properties := ["key1:value1"; "key3:"] |}.

(** The same flags without second pass phrase. *)
Definition single (await confirmations : Z) : Flags :=
  {| flag_unikid := flag_unikid (flags await confirmations);
     flag_passphrase := Some twelve;
     flag_second_passphrase := None;
     flag_fee := 100000000;
     flag_await := await;
     flag_confirmations := confirmations;
     flag_properties := ["key1:value1"; "key3:"] |}.

(** A sender that broadcasts whatever it is given. *)
Definition broadcast (svc : Services) (transaction : ITransactionData)
           (_ : Flags) : M (option Transaction) :=
  bind (request (SendTransaction transaction)
                (fun h => svc_sendTransaction svc h transaction))
       (fun _ => ret None).

(** A builder that leaves the transaction without id. *)
Definition unsigned (fee : Z) (nonce : string) : ITransactionData :=
  {| td_id := None; td_fee := fee; td_nonce := nonce; td_asset := EmptyString |}.

End Doubles.

(** ** More of the commands *)

(** [pieces.join(sep)]. *)
Fixpoint join (sep : string) (pieces : list string) : string :=
  match pieces with
  | [] => EmptyString
  | [piece] => piece
  | piece :: rest => piece ++ sep ++ join sep rest
  end.

(** [properties[key]]: the value of a key, [None] when the object has no
    such key. *)
Fixpoint lookup (key : string) (properties : Properties) : option (option string) :=
  match properties with
  | [] => None
  | (k, v) :: rest => if String.eqb k key then Some v else lookup key rest
  end.



(** [DelegateVoteCreateCommand.getVotes]. *)
Definition DelegateVoteCreateCommand_getVotes (delegatePublicKey : string)
  : list string :=
  ["+" ++ delegatePublicKey].

(** [BaseCommand.isFlagSet(flagName, flagChar)] on the arguments [argv] of
    the command. *)
Definition isFlagSet (argv : list string) (flagName : string)
           (flagChar : option string) : bool :=
  existsb
    (fun arg =>
       String.eqb arg ("--" ++ flagName)
       || JS.startsWith ("--" ++ flagName ++ "=") arg
       || match flagChar with
          | Some c =>
              JS.truthy c
              && (String.eqb arg ("-" ++ c) || JS.startsWith ("-" ++ c ++ "=") arg)
          | None => false
          end)
    argv.

(** *** GetWalletAddressCommandHelper *)

(** The node as this helper reaches it, through [this.cmd.api]: its wallets
    come with their chain meta data. *)
Record Api : Type := {
  api_getUnikById : History -> string -> result Unik;
  api_getWallet : History -> string -> result (option (Wallet * option ChainMeta))
}.

(** The result of [getWalletInformations]: [{ address, publicKey, chainMeta }]. *)
Record WalletInformations : Type := {
  wi_address : string;
  wi_publicKey : option string;
  wi_chainMeta : option ChainMeta
}.

(** What [formatOutput] returns: the bare address, the data, or the data
    with the context of the chain. *)
Inductive WalletOutput (Ctx : Type) : Type :=
| RawAddress (address : string)
| Data (address : string) (publicKey : option string)
| DataInContext (address : string) (publicKey : option string) (context : Ctx).

Section GetWalletAddress.

Variable svc : Services.
Variable api : Api.

(** [isTokenId], [isPassphrase] and [getWalletFromPassphrase] of [utils.ts],
    the key of the raw output format and [getChainContext], whose code is
    outside the modelled files. *)
Variable isTokenId : string -> bool.
Variable isPassphrase : string -> bool.
Variable getWalletFromPassphrase : string -> Wallet.
Variable rawKey : string.
Variable ChainContext : Type.
Variable getChainContext : ChainMeta -> string -> string -> ChainContext.

(** [getWalletInformations(id, format, displayChainmeta)]; a missing [id]
    is the empty text. *)
Definition getWalletInformations (id format : string) (displayChainmeta : bool)
  : M WalletInformations :=
  if isTokenId id then
    unik <- request (GetUnikById id) (fun h => api_getUnikById api h id) ;;
    let address := unik_ownerId unik in
    if negb (String.eqb format rawKey) then
      wallet <- request (GetWallet address) (fun h => api_getWallet api h address) ;;
      match wallet with
      | None => throw (TypeError "Cannot read property 'publicKey' of undefined")
      | Some (w, chainmeta) =>
          ret {| wi_address := address;
                 wi_publicKey := Some (w_publicKey w);
                 wi_chainMeta := if displayChainmeta then chainmeta else None |}
      end
    else
      ret {| wi_address := address; wi_publicKey := None; wi_chainMeta := None |}
  else
    (if JS.truthy id && negb (isPassphrase id) then
       throw (Error "ID argument does not match expected parameter")
     else ret tt) ;;;
    passphrase <-
      (if negb (JS.truthy id) then getPassphraseFromUser svc else ret id) ;;
    lift (checkPassphraseFormat passphrase) ;;;
    let wallet := getWalletFromPassphrase passphrase in
    ret {| wi_address := w_address wallet;
           wi_publicKey := Some (w_publicKey wallet);
           wi_chainMeta := None |}.

(** [formatOutput(format, address, publicKey, chainMeta, networkName, currentNode)]. *)
Definition formatOutput (format address : string) (publicKey : option string)
           (chainMeta : option ChainMeta) (networkName currentNode : string)
  : WalletOutput ChainContext :=
  if String.eqb format rawKey then RawAddress ChainContext address
  else
    match chainMeta with
    | Some meta =>
        DataInContext address publicKey
                      (getChainContext meta networkName currentNode)
    | None => Data ChainContext address publicKey
    end.

End GetWalletAddress.

(** Requests to the network, as opposed to prompts and log lines. *)
Definition isNetwork (ev : Event) : bool :=
  match ev with
  | PromptPassphrase | PromptSecondPassphrase | Log _ => false
  | _ => true
  end.

(** *** More test doubles *)

Module Fixtures.

(** A wallet with a registered second public key. *)
Definition secured (address : string) : Wallet :=
  {| w_address := address;
     w_publicKey := "key of " ++ address;
     w_secondPublicKey := Some "second key";
     w_isDelegate := false |}.

(** A node with the answers of [Doubles.node], except for the wallets and
    for the submission of a transaction. *)
Definition node (confs : nat -> option Z)
           (wallet : string -> result (option Wallet))
           (sent : result (option string)) : Services :=
  {| svc_getTransaction := svc_getTransaction (Doubles.node confs 0);
     svc_getUnikById := fun _ _ => Ok Doubles.unik;
     svc_getWallet := fun _ address => wallet address;
     svc_getNonce := fun _ _ => Ok 0;
     svc_sendTransaction := fun _ _ => sent;
     svc_resolveUnikName := fun _ _ =>
       Ok {| res_error := Some (HttpNotFoundError "no such name");
             res_data := None;
             res_chainmeta := None |};
     svc_getUniknameWalletAddress := fun _ _ => Ok "owner";
     svc_promptPassphrase := fun _ => Ok Doubles.twelve;
     svc_promptSecondPassphrase := fun _ => Ok Doubles.twelve |}.

Definition api : Api :=
  {| api_getUnikById := fun _ _ => Ok Doubles.unik;
     api_getWallet := fun _ address =>
       Ok (Some (Doubles.wallet_of address, Some (unik_chainmeta Doubles.unik))) |}.

(** A builder that signs: the id is made of the nonce. *)
Definition signed (fee : Z) (nonce : string) : ITransactionData :=
  {| td_id := Some ("tx" ++ nonce); td_fee := fee; td_nonce := nonce;
     td_asset := EmptyString |}.

(** A sender that finds no transaction, and one that finds it confirmed. *)
Definition lost (_ : ITransactionData) (_ : Flags) : M (option Transaction) :=
  ret None.

Definition confirmed (c : Z) (transaction : ITransactionData) (_ : Flags)
  : M (option Transaction) :=
  ret (Some {| tx_id := match td_id transaction with
                        | Some id => id
                        | None => EmptyString
                        end;
               tx_confirmations := c |}).

(** A node that reports no confirmation, and fails on the query number
    [k] for a transaction. *)
Definition flaky (k : nat) : Services :=
  {| svc_getTransaction := fun h id _ =>
       if (count isGetTransaction h =? k)%nat then Throw (Error "socket hang up")
       else Ok (Some {| tx_id := id; tx_confirmations := 0 |});
     svc_getUnikById := fun _ _ => Ok Doubles.unik;
     svc_getWallet := fun _ _ => Ok None;
     svc_getNonce := fun _ _ => Ok 0;
     svc_sendTransaction := fun _ _ => Ok None;
     svc_resolveUnikName := fun _ _ => Throw (Error "socket hang up");
     svc_getUniknameWalletAddress := fun _ _ => Throw (Error "socket hang up");
     svc_promptPassphrase := fun _ => Ok Doubles.twelve;
     svc_promptSecondPassphrase := fun _ => Ok Doubles.twelve |}.

End Fixtures.

(** ** Validators *)

Section Validators.

Lemma split_length (sep : ascii) (s : string) :
  List.length (JS.split sep s) = S (occurrences sep s).
Proof.
  induction s as [|c rest IH]; simpl; [reflexivity|].
  destruct (Ascii.eqb c sep); simpl.
  - now rewrite IH.
  - destruct (JS.split sep rest) as [|piece pieces] eqn:E; simpl in *; lia.
Qed.

(** C7, as the code has it: a pass phrase is accepted exactly when
    cutting it at every single space character gives 12 pieces (empty
    pieces count), that is when it holds exactly 11 spaces; every other
    pass phrase is refused with the error of a wrong format. *)
Theorem checkPassphraseFormat_single_space (passphrase : string) :
  (checkPassphraseFormat passphrase = Ok tt
   <-> List.length (JS.split " " passphrase) = 12%nat)
  /\ (checkPassphraseFormat passphrase = Ok tt
      <-> occurrences " " passphrase = 11%nat)
  /\ (checkPassphraseFormat passphrase = Ok tt
      \/ checkPassphraseFormat passphrase = Throw (Error "Wrong pass phrase format")).
Proof.
  unfold checkPassphraseFormat.
  rewrite split_length.
  destruct passphrase as [|c rest].
  - simpl. repeat split; intros; try discriminate; auto.
  - cbn [JS.truthy andb].
    destruct (Nat.eqb_spec (S (occurrences " " (String c rest))) 12) as [E|E];
      cbn [negb]; repeat split; intros; try discriminate; try lia; auto.
Qed.

(** C7, counterexample: twelve words separated by tabs are twelve
    whitespace-delimited tokens and are refused; eleven words with a
    doubled space are eleven such tokens and are accepted. *)
Lemma checkPassphraseFormat_whitespace_counterexample :
  (List.length (Spec.whitespace_tokens Doubles.tabbed) = 12%nat
   /\ checkPassphraseFormat Doubles.tabbed = Throw (Error "Wrong pass phrase format"))
  /\ (List.length (Spec.whitespace_tokens Doubles.doubled) = 11%nat
      /\ checkPassphraseFormat Doubles.doubled = Ok tt).
Proof. repeat split; vm_compute; reflexivity. Qed.

Example checkPassphraseFormat_runs :
  checkPassphraseFormat Doubles.twelve = Ok tt
  /\ checkPassphraseFormat "one two three" = Throw (Error "Wrong pass phrase format")
  /\ checkPassphraseFormat EmptyString = Throw (Error "Wrong pass phrase format").
Proof. repeat split. Qed.

Lemma take_while_all (p : ascii -> bool) (s : string) :
  JS.take_while p s = s <-> string_forallb p s = true.
Proof.
  induction s as [|c rest IH]; simpl; [tauto|].
  destruct (p c); simpl.
  - rewrite <- IH. split; [now injection 1|now intros ->].
  - split; discriminate.
Qed.

Lemma take_while_length (p : ascii -> bool) (s : string) :
  (String.length (JS.take_while p s) <= String.length s)%nat.
Proof.
  induction s as [|c rest IH]; simpl; [lia|].
  destruct (p c); simpl; lia.
Qed.

Lemma match_alnum_length (s m : string) :
  JS.match_alnum s = Some m -> (String.length m <= String.length s)%nat.
Proof.
  revert m. induction s as [|c rest IH]; simpl; intros m; [discriminate|].
  destruct (JS.alnum c).
  - injection 1 as <-. simpl. pose proof (take_while_length JS.alnum rest). lia.
  - intros H. apply IH in H. lia.
Qed.

Lemma match_alnum_None (s : string) :
  JS.match_alnum s = None <-> string_forallb (fun c => negb (JS.alnum c)) s = true.
Proof.
  induction s as [|c rest IH]; simpl; [tauto|].
  destruct (JS.alnum c); simpl; [split; discriminate|exact IH].
Qed.

Lemma match_alnum_whole (s : string) :
  JS.match_alnum s = Some s
  <-> s <> EmptyString /\ string_forallb JS.alnum s = true.
Proof.
  destruct s as [|c rest]; simpl.
  - split; [discriminate|intros [H _]; now destruct H].
  - destruct (JS.alnum c) eqn:E; simpl.
    + rewrite <- take_while_all. split.
      * injection 1 as H. split; [discriminate|exact H].
      * intros [_ ->]. reflexivity.
    + split; [|intros [_ H]; discriminate].
      intros H. apply match_alnum_length in H. simpl in H. lia.
Qed.

(** What [checkUnikPropertyFormat] does on every key: it accepts the
    non empty alphanumeric keys, throws a [TypeError] on the non empty
    keys without any alphanumeric character, and the error of a wrong
    format on all the others. *)
Lemma checkUnikPropertyFormat_cases (propertyKey : string) :
  let wrong :=
    Error ("Property " ++ propertyKey ++ " does not match expected format") in
  checkUnikPropertyFormat propertyKey =
    if negb (JS.truthy propertyKey) then Throw wrong
    else if string_forallb JS.alnum propertyKey then Ok tt
    else if string_forallb (fun c => negb (JS.alnum c)) propertyKey
         then Throw (TypeError "Cannot read property '0' of null")
         else Throw wrong.
Proof.
  intros wrong. unfold checkUnikPropertyFormat. fold wrong.
  destruct (negb (JS.truthy propertyKey)) eqn:Et; [reflexivity|].
  assert (Hne : propertyKey <> EmptyString)
    by (intros ->; discriminate).
  destruct (string_forallb JS.alnum propertyKey) eqn:Ea.
  - assert (H : JS.match_alnum propertyKey = Some propertyKey)
      by (apply match_alnum_whole; auto).
    rewrite H. cbn zeta. now rewrite String.eqb_refl.
  - destruct (JS.match_alnum propertyKey) as [m0|] eqn:Em.
    + assert (Hn : string_forallb (fun c => negb (JS.alnum c)) propertyKey = false).
      { destruct (string_forallb (fun c => negb (JS.alnum c)) propertyKey) eqn:En;
          [|reflexivity].
        apply match_alnum_None in En. congruence. }
      rewrite Hn. cbn zeta.
      destruct (String.eqb_spec m0 propertyKey) as [->|Hd]; [|reflexivity].
      apply match_alnum_whole in Em. destruct Em as [_ Em]. congruence.
    + apply match_alnum_None in Em. now rewrite Em.
Qed.

(** C8, at the key [-]: the validation of a property key throws a
    [TypeError], not the error of a wrong format, on a non empty key
    that holds no alphanumeric character. *)
Theorem checkUnikPropertyFormat_dash_TypeError :
  checkUnikPropertyFormat "-" = Throw (TypeError "Cannot read property '0' of null")
  /\ checkUnikPropertyFormat "-"
     <> Throw (Error "Property - does not match expected format").
Proof. split; [reflexivity|discriminate]. Qed.

Lemma forallb_eq_head (h0 : string) (heights : list string) :
  forallb (fun v => String.eqb v h0) heights = true
  <-> (forall x, In x heights -> x = h0).
Proof.
  rewrite forallb_forall. split; intros H x Hx.
  - now apply String.eqb_eq, H.
  - now apply String.eqb_eq, H.
Qed.

(** C9: the consistency check throws its error if and only if the
    heights are not all equal, and passes when they all agree. *)
Theorem checkDataConsistency_iff (heights : list string) :
  (checkDataConsistency heights
     = Throw (Error "Unable to read right now. Please retry.")
   <-> ~ Spec.all_equal heights)
  /\ (Spec.all_equal heights <-> checkDataConsistency heights = Ok tt).
Proof.
  unfold checkDataConsistency, Spec.all_equal.
  destruct heights as [|h0 rest].
  - simpl. repeat split; intros; try discriminate; try contradiction.
    exfalso. apply H. intros x y [].
  - cbn [nth_error].
    destruct (forallb _ (h0 :: rest)) eqn:E; cbn [negb].
    + pose proof (proj1 (forallb_eq_head h0 (h0 :: rest)) E) as E0.
      assert (A : forall x y, In x (h0 :: rest) -> In y (h0 :: rest) -> x = y)
        by (intros x y Hx Hy; rewrite (E0 x Hx), (E0 y Hy); reflexivity).
      repeat split; intros; try discriminate; try contradiction; auto.
    + assert (A : ~ (forall x y, In x (h0 :: rest) -> In y (h0 :: rest) -> x = y)).
      { intros A.
        assert (E' : forallb (fun v => String.eqb v h0) (h0 :: rest) = true)
          by (apply forallb_eq_head; intros x Hx; apply A; [exact Hx|now left]).
        congruence. }
      repeat split; intros; try discriminate; try contradiction; auto.
Qed.

Example checkDataConsistency_runs :
  checkDataConsistency ["1200"; "1200"; "1200"] = Ok tt
  /\ checkDataConsistency [] = Ok tt
  /\ checkDataConsistency ["1200"; "1201"]
     = Throw (Error "Unable to read right now. Please retry.").
Proof. repeat split. Qed.

End Validators.

(** ** Confirmation polling *)

Section Polling.

Variable svc : Services.
Variable blockTime : Z.
Variable transactionId : string.

Local Abbreviation poll := (GetTransaction transactionId (blockTime * 1000)).
Local Abbreviation wait := (waitTransactionConfirmations svc blockTime transactionId).
Local Abbreviation after := (polls blockTime transactionId).
Local Abbreviation reply := (answer svc blockTime transactionId).

Lemma polls_shift (k : nat) (h : History) :
  after k (poll :: h) = after (S k) h.
Proof.
  unfold polls. induction k as [|k IH]; simpl; [reflexivity|].
  now rewrite IH.
Qed.

Lemma count_polls (k : nat) (h : History) :
  count isGetTransaction (after k h) = (k + count isGetTransaction h)%nat.
Proof.
  unfold polls, count. induction k as [|k IH]; simpl; [reflexivity|].
  now rewrite IH.
Qed.

(** One turn of the loop. *)
Lemma wait_turn (numberOfRetry expected : Z) (h : History) :
  wait numberOfRetry expected h =
    match reply h 0%nat with
    | inl e => (inl e, poll :: h)
    | inr transactionFromNetwork =>
        if (confirmationsOf transactionFromNetwork <? expected)
           && (numberOfRetry >? 0)
        then wait (numberOfRetry - 1) expected (poll :: h)
        else (inr transactionFromNetwork, poll :: h)
    end.
Proof.
  rewrite waitTransactionConfirmations_equation_1.
  unfold answer, polls, getTransaction, request. simpl.
  destruct (svc_getTransaction svc h transactionId (blockTime * 1000))
    as [e|tx]; simpl; [reflexivity|].
  destruct (Sumbool.sumbool_of_bool _) as [E|E]; simpl; rewrite E; reflexivity.
Qed.

(** As long as the node reports fewer confirmations than expected and
    retries are left, each query consumes one retry. *)
Lemma wait_short (expected : Z) (k : nat) :
  forall (numberOfRetry : Z) (h : History),
    (forall j, (j < k)%nat ->
               exists tx, reply h j = Ok tx /\ confirmationsOf tx < expected) ->
    Z.of_nat k <= numberOfRetry ->
    wait numberOfRetry expected h
    = wait (numberOfRetry - Z.of_nat k) expected (after k h).
Proof.
  induction k as [|k IH]; intros numberOfRetry h Hshort Hk.
  - simpl. now rewrite Z.sub_0_r.
  - rewrite wait_turn.
    destruct (Hshort 0%nat ltac:(lia)) as (tx & -> & Hlt).
    unfold Ok.
    assert (E : (confirmationsOf tx <? expected) && (numberOfRetry >? 0) = true).
    { apply andb_true_intro. split; [now apply Z.ltb_lt|].
      apply Z.gtb_lt. lia. }
    rewrite E, IH.
    + rewrite polls_shift. f_equal. lia.
    + intros j Hj. unfold answer. rewrite polls_shift.
      apply (Hshort (S j)). lia.
    + lia.
Qed.

(** C1: polling stops at the first query that observes at least the
    expected confirmations.  If the queries 0 .. k-1 observe fewer
    confirmations than expected, the query k observes enough of them and k
    is within the retries, the tracker returns the answer to the query k
    after exactly k + 1 queries, which is fewer than the numberOfRetry + 1
    of the whole budget as soon as k < numberOfRetry. *)
Theorem waitTransactionConfirmations_stops_early
        (numberOfRetry expected : Z) (h : History)
        (k : nat) (tx : option Transaction) :
  (forall j, (j < k)%nat ->
             exists tx', reply h j = Ok tx' /\ confirmationsOf tx' < expected) ->
  reply h k = Ok tx ->
  expected <= confirmationsOf tx ->
  Z.of_nat k <= numberOfRetry ->
  wait numberOfRetry expected h = (Ok tx, after (S k) h)
  /\ count isGetTransaction (after (S k) h)
     = (count isGetTransaction h + (k + 1))%nat
  /\ (Z.of_nat k < numberOfRetry ->
      (k + 1 < Z.to_nat (numberOfRetry + 1))%nat).
Proof.
  intros Hshort Hk Henough Hbudget. split; [|split].
  - rewrite (@wait_short expected k numberOfRetry h Hshort Hbudget), wait_turn.
    change (reply (after k h) 0%nat) with (reply h k) at 1.
    rewrite Hk. unfold Ok.
    assert (E : (confirmationsOf tx <? expected) = false) by (apply Z.ltb_ge; lia).
    rewrite E. reflexivity.
  - rewrite count_polls. lia.
  - lia.
Qed.

(** C2, as the code has it: when every query of a polling observes the
    same confirmations c, the tracker returns an answer with these
    confirmations; it makes exactly numberOfRetry + 1 queries when c is
    below the expected confirmations, and exactly one query when c
    already reaches them. *)
Theorem waitTransactionConfirmations_constant
        (numberOfRetry expected c : Z) (h : History) :
  (forall j, exists tx, reply h j = Ok tx /\ confirmationsOf tx = c) ->
  0 <= numberOfRetry ->
  let queries := if c <? expected then S (Z.to_nat numberOfRetry) else 1%nat in
  exists tx,
    wait numberOfRetry expected h = (Ok tx, after queries h)
    /\ confirmationsOf tx = c
    /\ count isGetTransaction (after queries h)
       = (count isGetTransaction h + queries)%nat.
Proof.
  intros Hconst Hpos queries.
  assert (Hcount : count isGetTransaction (after queries h)
                   = (count isGetTransaction h + queries)%nat)
    by (rewrite count_polls; lia).
  subst queries. destruct (c <? expected) eqn:Ec.
  - destruct (Hconst (Z.to_nat numberOfRetry)) as (tx & Htx & Hc).
    exists tx. split; [|split; assumption].
    rewrite (@wait_short expected (Z.to_nat numberOfRetry) numberOfRetry h).
    + rewrite wait_turn.
      change (reply (after (Z.to_nat numberOfRetry) h) 0%nat)
        with (reply h (Z.to_nat numberOfRetry)).
      rewrite Htx. unfold Ok.
      replace (numberOfRetry - Z.of_nat (Z.to_nat numberOfRetry)) with 0 by lia.
      rewrite andb_false_r. reflexivity.
    + intros j _. destruct (Hconst j) as (tx' & Htx' & Hc').
      exists tx'. split; [assumption|]. apply Z.ltb_lt in Ec. lia.
    + lia.
  - destruct (Hconst 0%nat) as (tx & Htx & Hc).
    exists tx. split; [|split; assumption].
    rewrite wait_turn, Htx. unfold Ok. rewrite Hc, Ec. reflexivity.
Qed.

End Polling.

(** C1, on the example of the specification: with 3 expected
    confirmations, 3 retries and a node that reports 0, 1 and 3
    confirmations, the tracker returns 3 confirmations after 3 queries. *)
Lemma waitTransactionConfirmations_stops_early_witness :
  waitTransactionConfirmations (Doubles.scripted [0; 1; 3]) 8 "tx" 3 3 []
  = (Ok (Some {| tx_id := "tx"; tx_confirmations := 3 |}),
     [GetTransaction "tx" 8000; GetTransaction "tx" 8000; GetTransaction "tx" 8000])
  /\ count isGetTransaction (polls 8 "tx" 3 []) = 3%nat.
Proof.
  destruct (@waitTransactionConfirmations_stops_early
              (Doubles.scripted [0; 1; 3]) 8 "tx" 3 3 [] 2
              (Some {| tx_id := "tx"; tx_confirmations := 3 |}))
    as (Hrun & Hcount & _).
  - intros [|[|j]] Hj.
    + exists (Some {| tx_id := "tx"; tx_confirmations := 0 |}).
      split; [reflexivity|simpl; lia].
    + exists (Some {| tx_id := "tx"; tx_confirmations := 1 |}).
      split; [reflexivity|simpl; lia].
    + lia.
  - reflexivity.
  - simpl. lia.
  - lia.
  - split; [exact Hrun|exact Hcount].
Defined.

(** C2, counterexample: a node that reports 3 confirmations on every query,
    3 expected confirmations and 3 retries; the tracker makes one query,
    not 3 + 1. *)
Lemma waitTransactionConfirmations_constant_counterexample :
  (forall h id timeout,
      exists tx, svc_getTransaction (Doubles.constant 3) h id timeout = Ok tx
                 /\ confirmationsOf tx = 3)
  /\ count isGetTransaction
       (snd (waitTransactionConfirmations (Doubles.constant 3) 8 "tx" 3 3 []))
     = 1%nat
  /\ count isGetTransaction
       (snd (waitTransactionConfirmations (Doubles.constant 3) 8 "tx" 3 3 []))
     <> Z.to_nat (3 + 1).
Proof.
  split; [|split].
  - intros h id timeout.
    exists (Some {| tx_id := id; tx_confirmations := 3 |}). split; reflexivity.
  - reflexivity.
  - vm_compute. discriminate.
Qed.

(** C2, a run of the amended statement: 1 confirmation on every query, 3
    expected, 3 retries; 4 queries and 1 confirmation returned. *)
Lemma waitTransactionConfirmations_constant_witness :
  exists tx,
    waitTransactionConfirmations (Doubles.constant 1) 8 "tx" 3 3 []
    = (Ok tx, polls 8 "tx" 4 [])
    /\ confirmationsOf tx = 1
    /\ count isGetTransaction (polls 8 "tx" 4 []) = 4%nat.
Proof.
  apply (@waitTransactionConfirmations_constant (Doubles.constant 1) 8 "tx" 3 3 1 []).
  - intros j. exists (Some {| tx_id := "tx"; tx_confirmations := 1 |}).
    split; reflexivity.
  - lia.
Defined.

(** ** Requests of a kind in the history of a method *)

Section Histories.

Context {A B : Type}.
Variable p : Event -> bool.

Lemma adds_ret (a : A) : adds p 0 (ret a).
Proof. intros h. reflexivity. Qed.

Lemma adds_throw (e : exn) : adds p 0 (@throw A e).
Proof. intros h. reflexivity. Qed.

Lemma adds_lift (r : result A) : adds p 0 (lift r).
Proof. intros h. reflexivity. Qed.

Lemma adds_request_other (ev : Event) (reply : History -> result A) :
  p ev = false -> adds p 0 (request ev reply).
Proof. intros Hev h. unfold request, count. simpl. now rewrite Hev. Qed.

Lemma adds_request (ev : Event) (reply : History -> result A) :
  p ev = true -> adds p 1 (request ev reply).
Proof. intros Hev h. unfold request, count. simpl. now rewrite Hev. Qed.

Lemma adds_bind (n : nat) (m : M A) (k : A -> M B) :
  adds p n m -> (forall a, adds p 0 (k a)) -> adds p n (bind m k).
Proof.
  intros Hm Hk h. unfold bind. specialize (Hm h).
  destruct (m h) as [[e|a] h']; simpl in *; [exact Hm|].
  rewrite (Hk a h'). exact Hm.
Qed.

Lemma adds_try_catch (n : nat) (m : M A) (handler : exn -> M A) :
  adds p n m -> (forall e, adds p 0 (handler e)) -> adds p n (try_catch m handler).
Proof.
  intros Hm Hh h. unfold try_catch. specialize (Hm h).
  destruct (m h) as [[e|a] h']; simpl in *; [|exact Hm].
  rewrite (Hh e h'). exact Hm.
Qed.

End Histories.

(** Solves a goal [adds p 0 m] when [m] makes no request of the kind [p],
    by following the structure of [m]. *)
Ltac quiet :=
  repeat first
    [ match goal with |- forall _, _ => intro end
    | apply adds_ret
    | apply adds_throw
    | apply adds_lift
    | apply adds_request_other; reflexivity
    | apply adds_bind; [|intros ?]
    | apply adds_try_catch; [|intros ?]
    | match goal with
      | |- adds _ _ (match ?x with _ => _ end) => destruct x
      end ].

(** ** SetPropertiesCommand: consistency of the flags *)

Section FlagsConsistency.

Variable svc : Services.
Variable getBlockTime getVersion : Z.
Variable createNFTUpdateTransaction :
  string -> Properties -> Z -> Z -> string -> ITransactionData.

Local Abbreviation do :=
  (SetProperties.do svc getBlockTime getVersion createNFTUpdateTransaction).

(** C3: with [--await] not above [--confirmations] the command throws
    the error of inconsistent flags and leaves the history as it was: no
    prompt and no request to the network is made.  With [--await] above
    [--confirmations] the check passes and the command goes on to the
    validation of the token id. *)
Theorem do_checks_flags_first (flags : Flags) (h : History) :
  (flag_await flags <= flag_confirmations flags ->
   SetProperties.checkFlagsConsistency flags
   = Throw (Error (SetProperties.flagsConsistencyMessage flags))
   /\ do flags h = (Throw (Error (SetProperties.flagsConsistencyMessage flags)), h))
  /\ (flag_confirmations flags < flag_await flags ->
      SetProperties.checkFlagsConsistency flags = Ok tt
      /\ (forall e, checkUnikIdFormat (flag_unikid flags) = Throw e ->
                    do flags h = (Throw e, h))).
Proof.
  unfold SetProperties.do, SetProperties.checkFlagsConsistency.
  split; intros Hflags.
  - assert (E : (flag_await flags <=? flag_confirmations flags) = true)
      by (apply Z.leb_le; lia).
    rewrite E. split; reflexivity.
  - assert (E : (flag_await flags <=? flag_confirmations flags) = false)
      by (apply Z.leb_gt; lia).
    rewrite E. split; [reflexivity|].
    intros e He. unfold bind, lift, Ok. simpl. rewrite He. reflexivity.
Qed.

End FlagsConsistency.

(** C3, on the flags of the specification: [--await 1 --confirmations 1]
    is refused before any request; [--await 3 --confirmations 1] passes. *)
Lemma do_checks_flags_first_witness :
  (forall svc bt v build h,
      SetProperties.do svc bt v build (Doubles.flags 1 1) h
      = (Throw (Error "Flags consistency error. --await (1) should be strictly higher than --confirmations (1)"), h))
  /\ SetProperties.checkFlagsConsistency (Doubles.flags 3 1) = Ok tt.
Proof.
  split.
  - intros svc bt v build h.
    destruct (do_checks_flags_first svc bt v build (Doubles.flags 1 1) h) as [H _].
    destruct H as [_ H]; [simpl; lia|exact H].
  - destruct (do_checks_flags_first (Doubles.constant 0) 8 1
                (fun _ _ fee _ _ => Doubles.unsigned fee "1")
                (Doubles.flags 3 1) []) as [_ H].
    destruct H as [H _]; [simpl; lia|exact H].
Defined.

(** ** Target resolution *)

Lemma bind_lift_Ok {A B : Type} (a : A) (k : A -> M B) :
  bind (lift (Ok a)) k = k a.
Proof. reflexivity. Qed.

Section TargetResolution.

Variable svc : Services.
Variable isTokenId isDid : string -> bool.

(** [targetResolve]: a token id costs one request by id, a name one
    request to the name resolution, anything else no request at all. *)
Lemma targetResolve_paths (target : string) (h : History) :
  (isTokenId target = true ->
   snd (targetResolve svc isTokenId isDid target h) = GetUnikById target :: h)
  /\ (isTokenId target = false -> isDid target = true ->
      snd (targetResolve svc isTokenId isDid target h)
      = ResolveUnikName target :: h)
  /\ (isTokenId target = false -> isDid target = false ->
      targetResolve svc isTokenId isDid target h
      = (Throw (Error "Unik target argument does not match expected format."), h)).
Proof.
  unfold targetResolve. split; [|split].
  - intros ->. unfold bind, getUnikById, request.
    now destruct (svc_getUnikById svc h target).
  - intros -> ->. unfold bind, resolveUnikName, request.
    destruct (svc_resolveUnikName svc h target) as [e|resolved]; [reflexivity|].
    destruct (res_error resolved); [reflexivity|].
    now destruct (res_data resolved).
  - intros -> ->. reflexivity.
Qed.

(** [resolveDelegateWalletPublicKey]: a delegate written [@name] is
    looked up by name only, any other one by id only, and only when it
    has the format of an id. *)
Lemma resolveDelegateWalletPublicKey_paths (delegateId : string) (h : History) :
  (JS.truthy delegateId && JS.startsWith "@" delegateId = true ->
   count isNameLookup (snd (resolveDelegateWalletPublicKey svc delegateId h))
   = S (count isNameLookup h)
   /\ count isGetUnikById (snd (resolveDelegateWalletPublicKey svc delegateId h))
      = count isGetUnikById h)
  /\ (JS.truthy delegateId && JS.startsWith "@" delegateId = false ->
      checkUnikIdFormat delegateId = Ok tt ->
      count isNameLookup (snd (resolveDelegateWalletPublicKey svc delegateId h))
      = count isNameLookup h
      /\ count isGetUnikById (snd (resolveDelegateWalletPublicKey svc delegateId h))
         = S (count isGetUnikById h))
  /\ (JS.truthy delegateId && JS.startsWith "@" delegateId = false ->
      forall e, checkUnikIdFormat delegateId = Throw e ->
                resolveDelegateWalletPublicKey svc delegateId h = (Throw e, h)).
Proof.
  unfold resolveDelegateWalletPublicKey. split; [|split].
  - intros ->. split.
    + apply (@adds_bind _ _ isNameLookup 1).
      * now apply adds_request.
      * intros ?. unfold getWallet. quiet.
    + apply (@adds_bind _ _ isGetUnikById 0);
        unfold getUniknameWalletAddress, getWallet; quiet.
  - intros -> ->. rewrite bind_lift_Ok. split.
    + apply (@adds_bind _ _ isNameLookup 0); unfold getUnikById, getWallet; quiet.
    + apply (@adds_bind _ _ isGetUnikById 1).
      * apply adds_bind; [now apply adds_request|intros ?; quiet].
      * intros ?. unfold getWallet. quiet.
  - intros -> e ->. reflexivity.
Qed.

(** C4: the paths of target resolution exclude each other.  In
    [targetResolve] a target recognised as a token id makes the single
    request [getUnikById], a target recognised as a name (and not as a
    token id) the single request [resolveUnikName], and any other target
    throws the error of a wrong format without any request.  In
    [resolveDelegateWalletPublicKey] a name is never looked up by id, an
    id never by name, and a delegate that is neither throws the format
    error without any request. *)
Theorem target_resolution_exclusive (target : string) (h : History) :
  ((isTokenId target = true ->
    snd (targetResolve svc isTokenId isDid target h) = GetUnikById target :: h)
   /\ (isTokenId target = false -> isDid target = true ->
       snd (targetResolve svc isTokenId isDid target h)
       = ResolveUnikName target :: h)
   /\ (isTokenId target = false -> isDid target = false ->
       targetResolve svc isTokenId isDid target h
       = (Throw (Error "Unik target argument does not match expected format."), h)))
  /\ ((JS.truthy target && JS.startsWith "@" target = true ->
       count isNameLookup (snd (resolveDelegateWalletPublicKey svc target h))
       = S (count isNameLookup h)
       /\ count isGetUnikById (snd (resolveDelegateWalletPublicKey svc target h))
          = count isGetUnikById h)
      /\ (JS.truthy target && JS.startsWith "@" target = false ->
          checkUnikIdFormat target = Ok tt ->
          count isNameLookup (snd (resolveDelegateWalletPublicKey svc target h))
          = count isNameLookup h
          /\ count isGetUnikById (snd (resolveDelegateWalletPublicKey svc target h))
             = S (count isGetUnikById h))
      /\ (JS.truthy target && JS.startsWith "@" target = false ->
          forall e, checkUnikIdFormat target = Throw e ->
                    resolveDelegateWalletPublicKey svc target h = (Throw e, h))).
Proof.
  split; [apply targetResolve_paths|apply resolveDelegateWalletPublicKey_paths].
Qed.

End TargetResolution.

(** C4, on three targets: an id of 64 characters makes the single request
    by id, [@bob] the single request to the name resolution, and [bob] no
    request. *)
Lemma target_resolution_exclusive_witness :
  let id := flag_unikid (Doubles.flags 3 1) in
  let resolve := targetResolve (Doubles.constant 0) Doubles.isTokenId Doubles.isDid in
  snd (resolve id []) = [GetUnikById id]
  /\ snd (resolve "@bob" []) = [ResolveUnikName "@bob"]
  /\ resolve "bob" []
     = (Throw (Error "Unik target argument does not match expected format."), []).
Proof.
  intros id resolve. split; [|split].
  - destruct (target_resolution_exclusive (Doubles.constant 0)
                Doubles.isTokenId Doubles.isDid id []) as [[H _] _].
    apply H. reflexivity.
  - destruct (target_resolution_exclusive (Doubles.constant 0)
                Doubles.isTokenId Doubles.isDid "@bob" []) as [[_ [H _]] _].
    apply H; reflexivity.
  - destruct (target_resolution_exclusive (Doubles.constant 0)
                Doubles.isTokenId Doubles.isDid "bob" []) as [[_ [_ H]] _].
    apply H; reflexivity.
Defined.

(** ** Nonce *)

Lemma toString_reads_back (n : Z) :
  option_map Z.of_int (NilZero.int_of_string (JS.toString n)) = Some n.
Proof.
  unfold JS.toString. rewrite NilZero.isi.
  - simpl. now rewrite DecimalZ.of_to.
  - destruct n as [|p|p]; simpl; try discriminate.
    intros [= H]. now apply DecimalPos.Unsigned.to_uint_nonnil in H.
  - destruct n as [|p|p]; simpl; try discriminate.
    intros [= H]. now apply DecimalPos.Unsigned.to_uint_nonnil in H.
Qed.

Section Nonce.

Variable svc : Services.
Variable getWalletFromPassphrase : string -> Wallet.

(** C5: the nonce resolver asks the node for the nonce of the address
    that [getWalletFromPassphrase] derives from the pass phrase, and for a
    reported nonce n >= 0 it returns the decimal notation of n + 1. *)
Theorem getNextWalletNonceFromPassphrase_successor
        (passphrase : string) (h : History) (n : Z) :
  svc_getNonce svc h (w_address (getWalletFromPassphrase passphrase)) = Ok n ->
  0 <= n ->
  getNextWalletNonceFromPassphrase svc getWalletFromPassphrase passphrase h
  = (Ok (JS.toString (n + 1)),
     GetNonce (w_address (getWalletFromPassphrase passphrase)) :: h)
  /\ option_map Z.of_int (NilZero.int_of_string (JS.toString (n + 1)))
     = Some (n + 1).
Proof.
  intros Hn _. split; [|apply toString_reads_back].
  unfold getNextWalletNonceFromPassphrase, bind, getNonce, request.
  rewrite Hn. reflexivity.
Qed.

End Nonce.

(** C5, on an account with nonce 41: the next nonce is 42. *)
Lemma getNextWalletNonceFromPassphrase_successor_witness :
  getNextWalletNonceFromPassphrase (Doubles.node (fun _ => None) 41)
                                   Doubles.wallet_of Doubles.twelve []
  = (Ok "42", [GetNonce (Doubles.address_of Doubles.twelve)]).
Proof.
  destruct (@getNextWalletNonceFromPassphrase_successor
              (Doubles.node (fun _ => None) 41) Doubles.wallet_of
              Doubles.twelve [] 41) as [H _].
  - reflexivity.
  - lia.
  - exact H.
Defined.

(** ** Pass phrases *)

Lemma bind_run_Ok {A B : Type} (m : M A) (k : A -> M B) (a : A) (h h' : History) :
  m h = (Ok a, h') -> bind m k h = k a h'.
Proof. intros E. unfold bind. now rewrite E. Qed.

Lemma bind_ret {A B : Type} (a : A) (k : A -> M B) : bind (ret a) k = k a.
Proof. reflexivity. Qed.

Lemma checkPassphraseFormat_truthy (passphrase : string) :
  checkPassphraseFormat passphrase = Ok tt -> JS.truthy passphrase = true.
Proof.
  unfold checkPassphraseFormat. destruct (JS.truthy passphrase); [reflexivity|].
  discriminate.
Qed.

Section Passphrases.

Variable svc : Services.
Variable fromPassphrase : string -> string.
Variable verbose : bool.

Local Abbreviation ask := (askForPassphrases svc fromPassphrase verbose).

(** [hasSecondPassphrase] asks the node for one wallet. *)
Lemma hasSecondPassphrase_one_lookup (passphrase : string) :
  adds isGetWallet 1 (hasSecondPassphrase svc fromPassphrase verbose passphrase).
Proof.
  unfold hasSecondPassphrase, applyWalletPredicate.
  apply adds_try_catch.
  - apply adds_bind; [now apply adds_request|quiet].
  - intros e. unfold info, log. quiet.
Qed.

(** Without the check of the second pass phrase, or with a second pass
    phrase in the flags, no wallet is looked up. *)
Lemma askForPassphrases_no_lookup (flags : Flags) (checkSecondPassphrase : bool) :
  checkSecondPassphrase = false
  \/ JS.truthy_opt (flag_second_passphrase flags) = true ->
  adds isGetWallet 0 (ask flags checkSecondPassphrase).
Proof.
  intros H. unfold askForPassphrases.
  assert (Hfirst : adds isGetWallet 0
            match flag_passphrase flags with
            | Some p => if JS.truthy p then ret p else getPassphraseFromUser svc
            | None => getPassphraseFromUser svc
            end)
    by (unfold getPassphraseFromUser; quiet).
  apply adds_bind; [exact Hfirst|intros passphrase].
  apply adds_bind; [quiet|intros _].
  apply adds_bind; [|quiet].
  destruct checkSecondPassphrase; [|quiet].
  destruct H as [H|H]; [discriminate|].
  rewrite H. cbn [negb]. quiet.
Qed.

(** C10: the wallet lookup that decides whether a second pass phrase is
    required happens only when [checkSecondPassphrase] is true and the
    flags hold no second pass phrase: otherwise no wallet is requested,
    and with the check on, no second pass phrase and a valid first one,
    exactly one is.  When [checkSecondPassphrase] is false the second
    pass phrase of the flags is returned as it is, whatever its format,
    with a first pass phrase taken from the flags or from the prompt. *)
Theorem askForPassphrases_second (flags : Flags) (h : History) :
  (forall checkSecondPassphrase,
      checkSecondPassphrase = false
      \/ JS.truthy_opt (flag_second_passphrase flags) = true ->
      count isGetWallet (snd (ask flags checkSecondPassphrase h))
      = count isGetWallet h)
  /\ (forall p,
         flag_passphrase flags = Some p ->
         checkPassphraseFormat p = Ok tt ->
         JS.truthy_opt (flag_second_passphrase flags) = false ->
         count isGetWallet (snd (ask flags true h)) = S (count isGetWallet h))
  /\ (forall p,
         flag_passphrase flags = Some p ->
         checkPassphraseFormat p = Ok tt ->
         ask flags false h
         = (Ok {| first := p; second := flag_second_passphrase flags |}, h))
  /\ (forall p,
         JS.truthy_opt (flag_passphrase flags) = false ->
         svc_promptPassphrase svc h = Ok p ->
         checkPassphraseFormat p = Ok tt ->
         ask flags false h
         = (Ok {| first := p; second := flag_second_passphrase flags |},
            PromptPassphrase :: h)).
Proof.
  split; [|split; [|split]].
  - intros checkSecondPassphrase H.
    apply (askForPassphrases_no_lookup flags H h).
  - intros p Hp Hvalid Hsecond.
    pose proof (checkPassphraseFormat_truthy _ Hvalid) as Htruthy.
    unfold askForPassphrases. rewrite Hp, Htruthy, Hsecond, bind_ret, Hvalid.
    rewrite bind_lift_Ok. cbn [negb].
    apply (@adds_bind _ _ isGetWallet 1); [|quiet].
    apply adds_bind; [|quiet].
    apply adds_bind; [apply hasSecondPassphrase_one_lookup|].
    unfold getSecondPassphraseFromUser. quiet.
  - intros p Hp Hvalid.
    pose proof (checkPassphraseFormat_truthy _ Hvalid) as Htruthy.
    unfold askForPassphrases. rewrite Hp, Htruthy, bind_ret, Hvalid.
    reflexivity.
  - intros p Hflag Hprompt Hvalid.
    unfold askForPassphrases.
    assert (E : match flag_passphrase flags with
                | Some p => if JS.truthy p then ret p else getPassphraseFromUser svc
                | None => getPassphraseFromUser svc
                end = getPassphraseFromUser svc).
    { destruct (flag_passphrase flags) as [q|]; [|reflexivity].
      simpl in Hflag. now rewrite Hflag. }
    rewrite E. unfold bind at 1, getPassphraseFromUser, request.
    rewrite Hprompt. unfold Ok. rewrite Hvalid. reflexivity.
Qed.

End Passphrases.

(** C10, on flags that carry a valid first pass phrase and a second one
    that is not made of 12 words: without the check of the second pass
    phrase both are returned and nothing is requested. *)
Lemma askForPassphrases_second_witness :
  checkPassphraseFormat "not twelve words" = Throw (Error "Wrong pass phrase format")
  /\ askForPassphrases (Doubles.constant 0) Doubles.address_of false
                       (Doubles.flags 3 1) false []
     = (Ok {| first := Doubles.twelve; second := Some "not twelve words" |}, []).
Proof.
  split; [reflexivity|].
  destruct (askForPassphrases_second (Doubles.constant 0) Doubles.address_of false
              (Doubles.flags 3 1) []) as (_ & _ & H & _).
  apply (H Doubles.twelve); reflexivity.
Defined.

(** ** A composed transaction without id *)

Section TransactionId.

Variable svc : Services.
Variable getWalletFromPassphrase : string -> Wallet.
Variable fromPassphrase : string -> string.
Variable verbose : bool.
Variable sendAndWaitConfirmationsIfNeeded :
  ITransactionData -> Flags -> M (option Transaction).
Variable getProperties : Flags -> result Properties.
Variable createNFTUpdateTransaction :
  string -> Properties -> Z -> string -> string -> option string ->
  ITransactionData.
Variable getVotes : string -> list string.
Variable createVoteTransaction :
  list string -> Z -> string -> string -> option string ->
  result ITransactionData.
Variable getExplorerUrl : string.

Local Abbreviation update :=
  (PropertiesUpdateCommand_do svc getWalletFromPassphrase fromPassphrase verbose
     sendAndWaitConfirmationsIfNeeded getProperties createNFTUpdateTransaction).
Local Abbreviation vote :=
  (AbstractDelegateVoteCreateCommand_do svc getWalletFromPassphrase fromPassphrase
     verbose sendAndWaitConfirmationsIfNeeded getVotes createVoteTransaction
     getExplorerUrl).

(** The steps before the composition of a transaction broadcast nothing. *)
Lemma askForPassphrases_sends_nothing (flags : Flags) (checkSecond : bool) :
  adds isSendTransaction 0
       (askForPassphrases svc fromPassphrase verbose flags checkSecond).
Proof.
  unfold askForPassphrases, hasSecondPassphrase, applyWalletPredicate,
    getPassphraseFromUser, getSecondPassphraseFromUser, getWallet, info, log.
  quiet.
Qed.

Lemma getNextWalletNonceFromPassphrase_sends_nothing (passphrase : string) :
  adds isSendTransaction 0
       (getNextWalletNonceFromPassphrase svc getWalletFromPassphrase passphrase).
Proof. unfold getNextWalletNonceFromPassphrase, getNonce. quiet. Qed.

Lemma resolveDelegateWalletPublicKey_sends_nothing (delegateId : string) :
  adds isSendTransaction 0 (resolveDelegateWalletPublicKey svc delegateId).
Proof.
  unfold resolveDelegateWalletPublicKey, getUniknameWalletAddress,
    getUnikById, getWallet.
  quiet.
Qed.

Lemma adds_nothing_run {A : Type} (p : Event -> bool) (m : M A)
      (h h' : History) (r : result A) :
  adds p 0 m -> m h = (r, h') -> count p h' = count p h.
Proof. intros Hm Hrun. specialize (Hm h). now rewrite Hrun in Hm. Qed.

(** C6: when the transaction that the builder composes has no id, the
    property update and the vote stop there with the error [Transaction
    id can't be undefined], which is not the error of a rejected
    transaction; the history is the one the nonce resolution left, and
    it holds no more broadcast than before the command: the step that
    sends the transaction is not run. *)
Theorem composed_without_id_aborts (flags : Flags) (h : History) :
  (forall properties passphrases nonce h1 h2,
      checkUnikIdFormat (flag_unikid flags) = Ok tt ->
      getProperties flags = Ok properties ->
      askForPassphrases svc fromPassphrase verbose flags true h
      = (Ok passphrases, h1) ->
      getNextWalletNonceFromPassphrase svc getWalletFromPassphrase
                                       (first passphrases) h1
      = (Ok nonce, h2) ->
      td_id (createNFTUpdateTransaction (flag_unikid flags) properties
               (flag_fee flags) nonce (first passphrases) (second passphrases))
      = None ->
      update flags h = (Throw (Error "Transaction id can't be undefined"), h2)
      /\ count isSendTransaction h2 = count isSendTransaction h)
  /\ (forall args_id delegatePublicKey passphrases nonce transactionStruct h0 h1 h2,
         resolveDelegateWalletPublicKey svc args_id h = (Ok delegatePublicKey, h0) ->
         askForPassphrases svc fromPassphrase verbose flags true h0
         = (Ok passphrases, h1) ->
         getNextWalletNonceFromPassphrase svc getWalletFromPassphrase
                                          (first passphrases) h1
         = (Ok nonce, h2) ->
         createVoteTransaction (getVotes delegatePublicKey) (flag_fee flags)
                               nonce (first passphrases) (second passphrases)
         = Ok transactionStruct ->
         td_id transactionStruct = None ->
         vote flags args_id h
         = (Throw (Error "Transaction id can't be undefined"), h2)
         /\ count isSendTransaction h2 = count isSendTransaction h)
  /\ (forall errors,
         Error "Transaction id can't be undefined" <> SetProperties.rejected errors).
Proof.
  split; [|split].
  - intros properties passphrases nonce h1 h2 Hid Hprops Hask Hnonce Hnone.
    split.
    + unfold PropertiesUpdateCommand_do.
      rewrite Hid, bind_lift_Ok, Hprops, bind_lift_Ok.
      rewrite (@bind_run_Ok _ _ _ _ _ _ _ Hask), (@bind_run_Ok _ _ _ _ _ _ _ Hnonce).
      cbv zeta. rewrite Hnone. reflexivity.
    + rewrite (@adds_nothing_run _ _ _ _ _ _
                 (getNextWalletNonceFromPassphrase_sends_nothing _) Hnonce).
      apply (@adds_nothing_run _ _ _ _ _ _
               (askForPassphrases_sends_nothing _ _) Hask).
  - intros args_id pk passphrases nonce ts h0 h1 h2 Hpk Hask Hnonce Hts Hnone.
    split.
    + unfold AbstractDelegateVoteCreateCommand_do.
      rewrite (@bind_run_Ok _ _ _ _ _ _ _ Hpk), (@bind_run_Ok _ _ _ _ _ _ _ Hask), (@bind_run_Ok _ _ _ _ _ _ _ Hnonce).
      rewrite Hts, bind_lift_Ok, Hnone. reflexivity.
    + rewrite (@adds_nothing_run _ _ _ _ _ _
                 (getNextWalletNonceFromPassphrase_sends_nothing _) Hnonce).
      rewrite (@adds_nothing_run _ _ _ _ _ _
                 (askForPassphrases_sends_nothing _ _) Hask).
      apply (@adds_nothing_run _ _ _ _ _ _
               (resolveDelegateWalletPublicKey_sends_nothing _) Hpk).
  - intros errors. unfold SetProperties.rejected. intros [= H].
Qed.

End TransactionId.

(** C6, on a builder that composes transactions without id and a sender
    that would broadcast them: the property update and the vote stop with
    the error of the missing id after the nonce request, and nothing is
    broadcast. *)
Lemma composed_without_id_aborts_witness :
  let svc := Doubles.node (fun _ => None) 0 in
  let address := Doubles.address_of Doubles.twelve in
  PropertiesUpdateCommand_do svc Doubles.wallet_of Doubles.address_of false
    (Doubles.broadcast svc) (fun _ => Ok [])
    (fun _ _ fee nonce _ _ => Doubles.unsigned fee nonce)
    (Doubles.single 3 1) []
  = (Throw (Error "Transaction id can't be undefined"),
     [GetNonce address; GetWallet address])
  /\ AbstractDelegateVoteCreateCommand_do svc Doubles.wallet_of Doubles.address_of
       false (Doubles.broadcast svc) (fun publicKey => [publicKey])
       (fun _ fee nonce _ _ => Ok (Doubles.unsigned fee nonce)) EmptyString
       (Doubles.single 3 1) "@bob" []
     = (Throw (Error "Transaction id can't be undefined"),
        [GetNonce address; GetWallet address;
         GetWallet "owner"; GetUniknameWalletAddress "@bob"])
  /\ count isSendTransaction [GetNonce address; GetWallet address] = 0%nat.
Proof.
  intros svc address.
  destruct (@composed_without_id_aborts svc Doubles.wallet_of Doubles.address_of
              false (Doubles.broadcast svc) (fun _ => Ok [])
              (fun _ _ fee nonce _ _ => Doubles.unsigned fee nonce)
              (fun publicKey => [publicKey])
              (fun _ fee nonce _ _ => Ok (Doubles.unsigned fee nonce)) EmptyString
              (Doubles.single 3 1) [])
    as (Hupdate & Hvote & _).
  split; [|split].
  - apply (Hupdate [] {| first := Doubles.twelve; second := None |} "1"
                   [GetWallet address] [GetNonce address; GetWallet address]);
      reflexivity.
  - apply (Hvote "@bob" "key of owner"
                 {| first := Doubles.twelve; second := None |} "1"
                 (Doubles.unsigned 100000000 "1")
                 [GetWallet "owner"; GetUniknameWalletAddress "@bob"]
                 [GetWallet address; GetWallet "owner";
                  GetUniknameWalletAddress "@bob"]
                 [GetNonce address; GetWallet address; GetWallet "owner";
                  GetUniknameWalletAddress "@bob"]);
      reflexivity.
  - apply (Hupdate [] {| first := Doubles.twelve; second := None |} "1"
                   [GetWallet address] [GetNonce address; GetWallet address]);
      reflexivity.
Defined.

(** ** More on the validators *)

Unset Implicit Arguments.

(** X1: the validation of a token id accepts exactly the texts of 64
    characters and throws the error of a wrong format on all the others. *)
Theorem checkUnikIdFormat_iff (unikid : string) :
  (checkUnikIdFormat unikid = Ok tt <-> String.length unikid = 64%nat)
  /\ (String.length unikid <> 64%nat ->
      checkUnikIdFormat unikid
      = Throw (Error "Unikid parameter does not match expected format")).
Proof.
  unfold checkUnikIdFormat.
  destruct unikid as [|c rest]; [simpl; repeat split; intros; discriminate || auto|].
  cbn [JS.truthy andb].
  destruct (Nat.eqb_spec (String.length (String c rest)) 64) as [E|E];
    cbn [negb]; repeat split; intros; try discriminate; try contradiction; auto.
Qed.

Lemma checkUnikIdFormat_length (unikid : string) :
  checkUnikIdFormat unikid = Ok tt -> String.length unikid = 64%nat.
Proof.
  unfold checkUnikIdFormat.
  destruct (JS.truthy unikid); [|discriminate]. cbn [andb].
  destruct (Nat.eqb_spec (String.length unikid) 64); [auto|discriminate].
Qed.

Lemma occurrences_append (c : ascii) (s t : string) :
  occurrences c (s ++ t) = (occurrences c s + occurrences c t)%nat.
Proof.
  induction s as [|d s IH]; simpl; [reflexivity|]. rewrite IH. lia.
Qed.

Lemma split_no_separator (sep : ascii) (s : string) :
  occurrences sep s = 0%nat -> JS.split sep s = [s].
Proof.
  induction s as [|c rest IH]; simpl; [reflexivity|].
  destruct (Ascii.eqb c sep); simpl; [discriminate|].
  intros H. now rewrite (IH H).
Qed.

Lemma split_append (sep : ascii) (w rest : string) :
  occurrences sep w = 0%nat ->
  JS.split sep (w ++ String sep rest) = w :: JS.split sep rest.
Proof.
  induction w as [|c w IH]; simpl.
  - intros _. now rewrite Ascii.eqb_refl.
  - destruct (Ascii.eqb c sep); simpl; [discriminate|].
    intros H. now rewrite (IH H).
Qed.

(** Cutting the join of pieces that hold no separator gives the pieces
    back. *)
Lemma split_join (sep : ascii) (pieces : list string) :
  pieces <> [] ->
  Forall (fun piece => occurrences sep piece = 0%nat) pieces ->
  JS.split sep (join (String sep EmptyString) pieces) = pieces.
Proof.
  induction pieces as [|w [|w' rest] IH]; intros Hne Hall.
  - now destruct Hne.
  - simpl. apply split_no_separator. now inversion Hall.
  - inversion Hall as [|? ? Hw Hrest]; subst.
    change (join (String sep EmptyString) (w :: w' :: rest))
      with (w ++ String sep (join (String sep EmptyString) (w' :: rest))).
    rewrite (split_append _ _ _ Hw).
    rewrite IH; [reflexivity|discriminate|assumption].
Qed.

Lemma split_pieces (sep : ascii) (s : string) :
  Forall (fun piece => occurrences sep piece = 0%nat) (JS.split sep s).
Proof.
  induction s as [|c rest IH]; simpl.
  - constructor; [reflexivity|constructor].
  - destruct (Ascii.eqb c sep) eqn:E; [constructor; [reflexivity|exact IH]|].
    destruct (JS.split sep rest) as [|piece pieces]; simpl.
    + constructor; [simpl; now rewrite E|constructor].
    + inversion IH; subst. constructor; [simpl; rewrite E; assumption|assumption].
Qed.

(** Joining the pieces of a text gives the text back. *)
Lemma join_split (sep : ascii) (s : string) :
  join (String sep EmptyString) (JS.split sep s) = s.
Proof.
  induction s as [|c rest IH]; simpl; [reflexivity|].
  destruct (Ascii.eqb_spec c sep) as [->|Hc].
  - destruct (JS.split sep rest) as [|piece pieces] eqn:E.
    + pose proof (split_length sep rest) as L. rewrite E in L. discriminate.
    + change (String sep (join (String sep EmptyString) (piece :: pieces)) = String sep rest).
      now rewrite IH.
  - destruct (JS.split sep rest) as [|piece [|p' pieces]] eqn:E.
    + pose proof (split_length sep rest) as L. rewrite E in L. discriminate.
    + simpl in *. now rewrite IH.
    + change (String c (join (String sep EmptyString) (piece :: p' :: pieces))
              = String c rest).
      now rewrite IH.
Qed.

Lemma checkPassphraseFormat_pieces (passphrase : string) :
  checkPassphraseFormat passphrase = Ok tt
  <-> List.length (JS.split " " passphrase) = 12%nat.
Proof.
  unfold checkPassphraseFormat. rewrite split_length.
  destruct passphrase as [|c rest]; [simpl; split; discriminate|].
  cbn [JS.truthy andb].
  destruct (Nat.eqb_spec (S (occurrences " " (String c rest))) 12) as [E|E];
    cbn [negb]; split; intros; try discriminate; try lia; auto.
Qed.

(** X2: the accepted pass phrases are exactly the 12 words without space
    joined by single spaces; a word may be empty. *)
Theorem checkPassphraseFormat_words (passphrase : string) :
  checkPassphraseFormat passphrase = Ok tt
  <-> exists words,
      List.length words = 12%nat
      /\ Forall (fun word => occurrences " " word = 0%nat) words
      /\ passphrase = join " " words.
Proof.
  rewrite checkPassphraseFormat_pieces. split.
  - intros Hlen. exists (JS.split " " passphrase).
    split; [exact Hlen|]. split; [apply split_pieces|].
    symmetry. apply join_split.
  - intros (words & Hlen & Hall & ->).
    rewrite split_join; [exact Hlen| |exact Hall].
    intros ->. discriminate.
Qed.

(** ** Properties given on the command line *)

Section ParseProperties.

Import SetProperties.

Lemma cut_Some (sep : ascii) (s key value : string) :
  cut sep s = Some (key, value) ->
  s = key ++ String sep value /\ occurrences sep key = 0%nat.
Proof.
  revert key. induction s as [|c rest IH]; simpl; intros key; [discriminate|].
  destruct (Ascii.eqb_spec c sep) as [->|Hc].
  - intros [= <- <-]. split; reflexivity.
  - destruct (cut sep rest) as [[k v]|]; [|discriminate].
    intros [= <- <-]. destruct (IH k eq_refl) as [-> Hk].
    split; [reflexivity|]. simpl.
    destruct (Ascii.eqb_spec c sep); [contradiction|exact Hk].
Qed.

Lemma cut_None (sep : ascii) (s : string) :
  cut sep s = None <-> occurrences sep s = 0%nat.
Proof.
  induction s as [|c rest IH]; simpl; [tauto|].
  destruct (Ascii.eqb c sep); [split; discriminate|].
  destruct (cut sep rest) as [[k v]|]; simpl.
  - split; [discriminate|]. intros H. apply IH in H. discriminate.
  - split; [intros _; now apply IH|reflexivity].
Qed.







(** The loop of [parseProperties], from any object built so far. *)
Lemma parseProperties_from_Ok (props : list string) :
  forall acc,
    Forall (fun prop => occurrences ":" prop <> 0%nat) props ->
    exists ps, parseProperties_from props acc = Ok ps.
Proof.
  induction props as [|prop props IH]; intros acc Hall; simpl.
  - now exists acc.
  - inversion Hall as [|? ? Hprop Hprops]; subst.
    destruct (cut ":" prop) as [[k v]|] eqn:E.
    + now apply IH.
    + apply cut_None in E. contradiction.
Qed.

Lemma parseProperties_from_Throw (l1 l2 : list string) (prop : string) :
  forall acc,
    Forall (fun prop => occurrences ":" prop <> 0%nat) l1 ->
    occurrences ":" prop = 0%nat ->
    parseProperties_from (l1 ++ prop :: l2)%list acc
    = Throw (Error ("Property " ++ prop ++ ", doesn't contain :")).
Proof.
  induction l1 as [|p l1 IH]; intros acc Hall Hprop; simpl.
  - apply cut_None in Hprop. now rewrite Hprop.
  - inversion Hall as [|? ? Hp Hl1]; subst.
    destruct (cut ":" p) as [[k v]|] eqn:E.
    + now apply IH.
    + apply cut_None in E. contradiction.
Qed.

(** X3: the properties of the command line are accepted when every one of
    them holds a colon; otherwise the first one without colon is reported,
    whatever follows it. *)
Theorem parseProperties_outcome (props : list string) :
  (Forall (fun prop => occurrences ":" prop <> 0%nat) props ->
   exists ps, parseProperties props = Ok ps)
  /\ (forall l1 prop l2,
         props = (l1 ++ prop :: l2)%list ->
         Forall (fun prop => occurrences ":" prop <> 0%nat) l1 ->
         occurrences ":" prop = 0%nat ->
         parseProperties props
         = Throw (Error ("Property " ++ prop ++ ", doesn't contain :"))).
Proof.
  split.
  - apply parseProperties_from_Ok.
  - intros l1 prop l2 -> Hall Hprop. now apply parseProperties_from_Throw.
Qed.








End ParseProperties.



(** ** More on the confirmation polling *)

Section PollingBudget.

Variable svc : Services.
Variable blockTime : Z.
Variable transactionId : string.

Local Abbreviation poll := (GetTransaction transactionId (blockTime * 1000)).
Local Abbreviation wait := (waitTransactionConfirmations svc blockTime transactionId).
Local Abbreviation after := (polls blockTime transactionId).
Local Abbreviation reply := (answer svc blockTime transactionId).

Lemma wait_bounded_by (m : nat) :
  forall numberOfRetry expected h,
    Z.to_nat numberOfRetry = m ->
    exists k, (1 <= k <= m + 1)%nat
              /\ snd (wait numberOfRetry expected h) = after k h.
Proof.
  induction m as [|m IH]; intros numberOfRetry expected h Hm;
    rewrite wait_turn; destruct (reply h 0%nat) as [e|tx];
    try (exists 1%nat; split; [lia|reflexivity]).
  - assert (E : (numberOfRetry >? 0) = false)
      by (apply not_true_is_false; intros H; apply Z.gtb_lt in H; lia).
    rewrite E, andb_false_r. exists 1%nat. split; [lia|reflexivity].
  - destruct ((confirmationsOf tx <? expected) && (numberOfRetry >? 0));
      [|exists 1%nat; split; [lia|reflexivity]].
    destruct (IH (numberOfRetry - 1) expected (poll :: h) ltac:(lia))
      as (k & Hk & Hrun).
    exists (S k). split; [lia|]. rewrite Hrun. apply polls_shift.
Qed.

(** X7: whatever the node answers, the tracker makes at least one query
    and at most numberOfRetry + 1 of them (one when no retry is allowed),
    and it does nothing else. *)
Theorem waitTransactionConfirmations_bounded
        (numberOfRetry expected : Z) (h : History) :
  exists k, (1 <= k <= Z.to_nat numberOfRetry + 1)%nat
            /\ snd (wait numberOfRetry expected h) = after k h.
Proof.
  destruct (wait_bounded_by (Z.to_nat numberOfRetry) numberOfRetry expected h
              eq_refl) as (k & Hk & Hrun).
  exists k. split; [exact Hk|exact Hrun].
Qed.

(** X8: an error of the node ends the polling at once: when the queries
    before the query k observe too few confirmations and the query k
    throws, within the retries, the tracker throws the same error after k +
    1 queries. *)
Theorem waitTransactionConfirmations_throws
        (numberOfRetry expected : Z) (h : History) (k : nat) (e : exn) :
  (forall j, (j < k)%nat ->
             exists tx, reply h j = Ok tx /\ confirmationsOf tx < expected) ->
  reply h k = Throw e ->
  Z.of_nat k <= numberOfRetry ->
  wait numberOfRetry expected h = (Throw e, after (S k) h).
Proof.
  intros Hshort Hk Hbudget.
  rewrite (@wait_short svc blockTime transactionId expected k numberOfRetry h
                       Hshort Hbudget).
  rewrite wait_turn.
  change (reply (after k h) 0%nat) with (reply h k). rewrite Hk. reflexivity.
Qed.

Lemma wait_returns_by (m : nat) :
  forall numberOfRetry expected h tx h',
    Z.to_nat numberOfRetry = m ->
    wait numberOfRetry expected h = (Ok tx, h') ->
    exists k, (k <= m)%nat
              /\ h' = after (S k) h
              /\ reply h k = Ok tx
              /\ (forall j, (j < k)%nat ->
                            exists tx', reply h j = Ok tx'
                                        /\ confirmationsOf tx' < expected)
              /\ (confirmationsOf tx < expected -> k = m).
Proof.
  induction m as [|m IH]; intros numberOfRetry expected h tx h' Hm;
    rewrite wait_turn; destruct (reply h 0%nat) as [e|tx0] eqn:E0;
    try discriminate.
  - assert (E : (numberOfRetry >? 0) = false)
      by (apply not_true_is_false; intros H; apply Z.gtb_lt in H; lia).
    rewrite E, andb_false_r. intros [= <- <-].
    exists 0%nat.
    split; [lia|]. split; [reflexivity|]. split; [exact E0|].
    split; [intros j Hj; lia|reflexivity].
  - destruct (confirmationsOf tx0 <? expected) eqn:Ec;
      destruct (numberOfRetry >? 0) eqn:En; cbn [andb].
    + intros Hrun.
      destruct (IH (numberOfRetry - 1) expected (poll :: h) tx h' ltac:(lia) Hrun)
        as (k & Hk & -> & Hreply & Hshort & Hlast).
      exists (S k). split; [lia|]. split; [apply polls_shift|].
      split; [|split].
      * unfold answer in *. now rewrite polls_shift in Hreply.
      * intros [|j] Hj.
        -- exists tx0. split; [exact E0|now apply Z.ltb_lt].
        -- destruct (Hshort j ltac:(lia)) as (tx' & Htx' & Hlt).
           exists tx'. split; [|exact Hlt].
           unfold answer in *. now rewrite polls_shift in Htx'.
      * intros Hlt. rewrite (Hlast Hlt). reflexivity.
    + rewrite Z.gtb_ltb in En. apply Z.ltb_ge in En. lia.
    + intros [= <- <-]. apply Z.ltb_ge in Ec. exists 0%nat.
      split; [lia|]. split; [reflexivity|]. split; [exact E0|].
      split; [intros j Hj; lia|intros Hlt; lia].
    + intros [= <- <-]. apply Z.ltb_ge in Ec. exists 0%nat.
      split; [lia|]. split; [reflexivity|]. split; [exact E0|].
      split; [intros j Hj; lia|intros Hlt; lia].
Qed.

(** X9: what the tracker returns is the last answer of the node, all the
    answers before it were short of the expected confirmations, and an
    answer that is itself short of them is returned only when the retries
    are used up, after numberOfRetry + 1 queries. *)
Theorem waitTransactionConfirmations_returns
        (numberOfRetry expected : Z) (h h' : History) (tx : option Transaction) :
  wait numberOfRetry expected h = (Ok tx, h') ->
  exists k, (k <= Z.to_nat numberOfRetry)%nat
            /\ h' = after (S k) h
            /\ reply h k = Ok tx
            /\ (forall j, (j < k)%nat ->
                          exists tx', reply h j = Ok tx'
                                      /\ confirmationsOf tx' < expected)
            /\ (confirmationsOf tx < expected -> k = Z.to_nat numberOfRetry).
Proof.
  intros Hrun.
  destruct (wait_returns_by (Z.to_nat numberOfRetry) numberOfRetry expected
              h tx h' eq_refl Hrun)
    as (k & Hk & Hh & Hreply & Hshort & Hlast).
  exists k.
  split; [exact Hk|]. split; [exact Hh|]. split; [exact Hreply|].
  split; [exact Hshort|exact Hlast].
Qed.

End PollingBudget.

(** X8, on a node that fails on its second answer: the tracker throws
    after two queries, with two retries left. *)
Lemma waitTransactionConfirmations_throws_witness :
  waitTransactionConfirmations (Fixtures.flaky 1) 8 "tx" 3 1 []
  = (Throw (Error "socket hang up"),
     [GetTransaction "tx" 8000; GetTransaction "tx" 8000]).
Proof.
  apply (waitTransactionConfirmations_throws (Fixtures.flaky 1) 8 "tx" 3 1 [] 1).
  - intros [|j] Hj; [|lia].
    exists (Some {| tx_id := "tx"; tx_confirmations := 0 |}).
    split; [reflexivity|simpl; lia].
  - reflexivity.
  - lia.
Defined.

(** X9, on a node that reports 0 then 1 confirmation for ever, with 3
    expected confirmations and 3 retries: the answer returned is the fourth
    one. *)
Lemma waitTransactionConfirmations_returns_witness :
  exists k, (k <= 3)%nat
            /\ polls 8 "tx" 4 [] = polls 8 "tx" (S k) []
            /\ answer (Doubles.node (fun j => Some (Z.min 1 (Z.of_nat j))) 0)
                      8 "tx" [] k
               = Ok (Some {| tx_id := "tx"; tx_confirmations := 1 |})
            /\ (forall j, (j < k)%nat ->
                          exists tx',
                            answer (Doubles.node (fun j => Some (Z.min 1 (Z.of_nat j))) 0)
                                   8 "tx" [] j = Ok tx'
                            /\ confirmationsOf tx' < 3)
            /\ (confirmationsOf (Some {| tx_id := "tx"; tx_confirmations := 1 |}) < 3 ->
                k = Z.to_nat 3).
Proof.
  apply (waitTransactionConfirmations_returns
           (Doubles.node (fun j => Some (Z.min 1 (Z.of_nat j))) 0) 8 "tx" 3 3 []).
  reflexivity.
Defined.

(** ** More on the pass phrases *)

Lemma bind_Ok_inv {A B : Type} (m : M A) (k : A -> M B) (h h' : History) (b : B) :
  bind m k h = (Ok b, h') ->
  exists a h1, m h = (Ok a, h1) /\ k a h1 = (Ok b, h').
Proof.
  unfold bind. destruct (m h) as [[e|a] h1]; [discriminate|].
  intros H. now exists a, h1.
Qed.

Section SecondPassphrase.

Variable svc : Services.
Variable fromPassphrase : string -> string.
Variable verbose : bool.

Local Abbreviation ask := (askForPassphrases svc fromPassphrase verbose).
Local Abbreviation needs := (hasSecondPassphrase svc fromPassphrase verbose).

Lemma hasSecondPassphrase_found (passphrase : string) (h : History) (w : Wallet) :
  svc_getWallet svc h (fromPassphrase passphrase) = Ok (Some w) ->
  needs passphrase h
  = (Ok (JS.truthy_opt (w_secondPublicKey w)),
     GetWallet (fromPassphrase passphrase) :: h).
Proof.
  unfold hasSecondPassphrase, applyWalletPredicate, try_catch, bind, getWallet,
    request.
  intros ->. reflexivity.
Qed.

(** X10: a second pass phrase is required exactly when the wallet of the
    account exists and has a second public key.  A wallet that the node
    does not know (an [HttpNotFoundError]) requires none; any other error
    of the node is thrown again. *)
Theorem hasSecondPassphrase_outcomes (passphrase : string) (h : History) :
  let lookup := GetWallet (fromPassphrase passphrase) in
  (forall w,
      svc_getWallet svc h (fromPassphrase passphrase) = Ok (Some w) ->
      needs passphrase h = (Ok (JS.truthy_opt (w_secondPublicKey w)), lookup :: h))
  /\ (svc_getWallet svc h (fromPassphrase passphrase) = Ok None ->
      needs passphrase h = (Ok false, lookup :: h))
  /\ (forall message,
         svc_getWallet svc h (fromPassphrase passphrase)
         = Throw (HttpNotFoundError message) ->
         fst (needs passphrase h) = Ok false
         /\ filter isNetwork (snd (needs passphrase h))
            = lookup :: filter isNetwork h)
  /\ (forall e,
         svc_getWallet svc h (fromPassphrase passphrase) = Throw e ->
         (forall message, e <> HttpNotFoundError message) ->
         needs passphrase h = (Throw e, lookup :: h)).
Proof.
  intros lookup.
  unfold hasSecondPassphrase, applyWalletPredicate, try_catch, bind, getWallet,
    request.
  split; [|split; [|split]].
  - intros w ->. reflexivity.
  - intros ->. reflexivity.
  - intros message ->. unfold Throw, info, log, request, ret.
    destruct verbose; split; reflexivity.
  - intros e -> Hother. unfold Throw.
    destruct e as [m|m|m]; try reflexivity.
    now destruct (Hother m).
Qed.

(** X11: the pass phrases that [askForPassphrases] returns are checked:
    the first one always has the format of a pass phrase, and so has the
    second one when it is there, not empty, and its check was asked for. *)
Theorem askForPassphrases_valid
        (flags : Flags) (checkSecondPassphrase : bool) (h h' : History)
        (passphrases : CryptoAccountPassphrases) :
  ask flags checkSecondPassphrase h = (Ok passphrases, h') ->
  checkPassphraseFormat (first passphrases) = Ok tt
  /\ (checkSecondPassphrase = true ->
      forall s, second passphrases = Some s ->
                s = EmptyString \/ checkPassphraseFormat s = Ok tt).
Proof.
  unfold askForPassphrases. intros Hrun.
  apply bind_Ok_inv in Hrun as (p & h1 & _ & Hrun).
  apply bind_Ok_inv in Hrun as ([] & h2 & Hcheck & Hrun).
  apply bind_Ok_inv in Hrun as (s2 & h3 & Hsecond & Hret).
  injection Hret as <- <-. cbn [first second].
  unfold lift in Hcheck. injection Hcheck as Hcheck _.
  split; [exact Hcheck|].
  intros -> s ->.
  apply bind_Ok_inv in Hsecond as (s0 & h4 & _ & Hmatch).
  destruct s0 as [s0|]; [|discriminate].
  destruct s0 as [|c s0]; cbn [JS.truthy] in Hmatch.
  - injection Hmatch as <- _. now left.
  - apply bind_Ok_inv in Hmatch as ([] & h5 & Hc & Hret).
    injection Hret as <- _. right.
    unfold lift in Hc. now injection Hc as Hc _.
Qed.

(** X12: with no second pass phrase in the flags and a valid first one,
    the second pass phrase is prompted for exactly when the wallet has a
    second public key, after the lookup of the wallet; otherwise nothing is
    prompted and no second pass phrase is returned. *)
Theorem askForPassphrases_prompts_second
        (flags : Flags) (h : History) (p : string) (w : Wallet) :
  flag_passphrase flags = Some p ->
  checkPassphraseFormat p = Ok tt ->
  JS.truthy_opt (flag_second_passphrase flags) = false ->
  svc_getWallet svc h (fromPassphrase p) = Ok (Some w) ->
  (JS.truthy_opt (w_secondPublicKey w) = true ->
   forall s,
     svc_promptSecondPassphrase svc (GetWallet (fromPassphrase p) :: h) = Ok s ->
     checkPassphraseFormat s = Ok tt ->
     ask flags true h
     = (Ok {| first := p; second := Some s |},
        PromptSecondPassphrase :: GetWallet (fromPassphrase p) :: h))
  /\ (JS.truthy_opt (w_secondPublicKey w) = false ->
      ask flags true h
      = (Ok {| first := p; second := flag_second_passphrase flags |},
         GetWallet (fromPassphrase p) :: h)).
Proof.
  intros Hp Hvalid Hflag Hwallet.
  pose proof (checkPassphraseFormat_truthy _ Hvalid) as Htruthy.
  pose proof (hasSecondPassphrase_found p h w Hwallet) as Hneeds.
  unfold askForPassphrases.
  rewrite Hp, Htruthy, Hflag, bind_ret, Hvalid, bind_lift_Ok. cbn [negb].
  split.
  - intros Hkey s Hprompt Hs. rewrite Hkey in Hneeds.
    pose proof (checkPassphraseFormat_truthy _ Hs) as Hst.
    assert (Hasked :
              bind (getSecondPassphraseFromUser svc) (fun a => ret (Some a))
                   (GetWallet (fromPassphrase p) :: h)
              = (Ok (Some s),
                 PromptSecondPassphrase :: GetWallet (fromPassphrase p) :: h)).
    { unfold bind, getSecondPassphraseFromUser, request. now rewrite Hprompt. }
    match goal with
    | |- bind (bind (bind ?m ?k1) ?k2) ?k3 _ = _ =>
        assert (H2 : bind m k1 h
                     = (Ok (Some s),
                        PromptSecondPassphrase :: GetWallet (fromPassphrase p) :: h))
          by (rewrite (@bind_run_Ok _ _ m k1 _ _ _ Hneeds); exact Hasked);
        assert (H3 : bind (bind m k1) k2 h
                     = (Ok (Some s),
                        PromptSecondPassphrase :: GetWallet (fromPassphrase p) :: h))
          by (rewrite (@bind_run_Ok _ _ _ k2 _ _ _ H2); cbv beta iota;
              rewrite Hst; unfold bind, lift; rewrite Hs; reflexivity);
        rewrite (@bind_run_Ok _ _ _ k3 _ _ _ H3); reflexivity
    end.
  - intros Hkey. rewrite Hkey in Hneeds.
    match goal with
    | |- bind (bind (bind ?m ?k1) ?k2) ?k3 _ = _ =>
        assert (H2 : bind m k1 h
                     = (Ok (flag_second_passphrase flags),
                        GetWallet (fromPassphrase p) :: h))
          by (rewrite (@bind_run_Ok _ _ m k1 _ _ _ Hneeds); reflexivity);
        assert (H3 : bind (bind m k1) k2 h
                     = (Ok (flag_second_passphrase flags),
                        GetWallet (fromPassphrase p) :: h))
          by (rewrite (@bind_run_Ok _ _ _ k2 _ _ _ H2);
              destruct (flag_second_passphrase flags) as [[|c s]|];
              try reflexivity; discriminate);
        rewrite (@bind_run_Ok _ _ _ k3 _ _ _ H3); reflexivity
    end.
Qed.

End SecondPassphrase.

(** X11, on the flags of a command without second pass phrase. *)
Lemma askForPassphrases_valid_witness :
  checkPassphraseFormat Doubles.twelve = Ok tt
  /\ (true = true ->
      forall s, @None string = Some s ->
                s = EmptyString \/ checkPassphraseFormat s = Ok tt).
Proof.
  apply (askForPassphrases_valid (Doubles.constant 0) Doubles.address_of false
           (Doubles.single 3 1) true []
           [GetWallet (Doubles.address_of Doubles.twelve)]
           {| first := Doubles.twelve; second := None |}).
  reflexivity.
Defined.

(** X12, on an account with a second public key: the second pass phrase
    is prompted for after the lookup of the wallet. *)
Lemma askForPassphrases_prompts_second_witness :
  askForPassphrases
    (Fixtures.node (fun _ => None) (fun a => Ok (Some (Fixtures.secured a))) (Ok None))
    Doubles.address_of false (Doubles.single 3 1) true []
  = (Ok {| first := Doubles.twelve; second := Some Doubles.twelve |},
     [PromptSecondPassphrase; GetWallet (Doubles.address_of Doubles.twelve)]).
Proof.
  destruct (askForPassphrases_prompts_second
              (Fixtures.node (fun _ => None)
                             (fun a => Ok (Some (Fixtures.secured a))) (Ok None))
              Doubles.address_of false (Doubles.single 3 1) [] Doubles.twelve
              (Fixtures.secured (Doubles.address_of Doubles.twelve))
              eq_refl eq_refl eq_refl eq_refl) as [H _].
  apply (H eq_refl Doubles.twelve); reflexivity.
Defined.

(** ** More on the write commands *)

Section WriteCommands.

Variable svc : Services.
Variable getWalletFromPassphrase : string -> Wallet.
Variable fromPassphrase : string -> string.
Variable verbose : bool.
Variable sendAndWaitConfirmationsIfNeeded :
  ITransactionData -> Flags -> M (option Transaction).
Variable getProperties : Flags -> result Properties.
Variable createNFTUpdateTransaction :
  string -> Properties -> Z -> string -> string -> option string ->
  ITransactionData.
Variable getVotes : string -> list string.
Variable createVoteTransaction :
  list string -> Z -> string -> string -> option string ->
  result ITransactionData.
Variable getExplorerUrl : string.

Local Abbreviation update :=
  (PropertiesUpdateCommand_do svc getWalletFromPassphrase fromPassphrase verbose
     sendAndWaitConfirmationsIfNeeded getProperties createNFTUpdateTransaction).
Local Abbreviation vote :=
  (AbstractDelegateVoteCreateCommand_do svc getWalletFromPassphrase fromPassphrase
     verbose sendAndWaitConfirmationsIfNeeded getVotes createVoteTransaction
     getExplorerUrl).
Local Abbreviation ask := (askForPassphrases svc fromPassphrase verbose).
Local Abbreviation next :=
  (getNextWalletNonceFromPassphrase svc getWalletFromPassphrase).

(** X13: the property update validates before it asks anything: a token
    id of a wrong length, a failure of [getProperties] or a pass phrase of
    the flags with a wrong format ends the command with that error, without
    any prompt and without any request to the node. *)
Theorem PropertiesUpdateCommand_do_validates_first (flags : Flags) (h : History) :
  (forall e,
      checkUnikIdFormat (flag_unikid flags) = Throw e ->
      update flags h = (Throw e, h))
  /\ (forall e,
         checkUnikIdFormat (flag_unikid flags) = Ok tt ->
         getProperties flags = Throw e ->
         update flags h = (Throw e, h))
  /\ (forall properties p e,
         checkUnikIdFormat (flag_unikid flags) = Ok tt ->
         getProperties flags = Ok properties ->
         flag_passphrase flags = Some p ->
         JS.truthy p = true ->
         checkPassphraseFormat p = Throw e ->
         update flags h = (Throw e, h)).
Proof.
  unfold PropertiesUpdateCommand_do. split; [|split].
  - intros e ->. reflexivity.
  - intros e -> ->. reflexivity.
  - intros properties p e -> -> Hp Htruthy Hbad.
    rewrite !bind_lift_Ok. unfold askForPassphrases.
    rewrite Hp, Htruthy, bind_ret, Hbad. reflexivity.
Qed.

(** X14: once the transaction is composed with an id, the property update
    logs one line, hands the transaction to the sender and returns the
    token id, the transaction id and the confirmations of the transaction
    the sender found; a transaction that was not found is no error and
    counts 0 confirmations. *)
Theorem PropertiesUpdateCommand_do_outcome
        (flags : Flags) (h h1 h2 h3 : History) (properties : Properties)
        (passphrases : CryptoAccountPassphrases) (nonce id : string)
        (finalTransaction : option Transaction) :
  let transactionStruct :=
    createNFTUpdateTransaction (flag_unikid flags) properties (flag_fee flags)
                               nonce (first passphrases) (second passphrases) in
  let line :=
    Log ("Binding new propert"
         ++ (if (1 <? List.length properties)%nat then "ies" else "y")
         ++ " to UNIK.") in
  checkUnikIdFormat (flag_unikid flags) = Ok tt ->
  getProperties flags = Ok properties ->
  ask flags true h = (Ok passphrases, h1) ->
  next (first passphrases) h1 = (Ok nonce, h2) ->
  td_id transactionStruct = Some id ->
  JS.truthy id = true ->
  sendAndWaitConfirmationsIfNeeded transactionStruct flags (line :: h2)
  = (Ok finalTransaction, h3) ->
  update flags h
  = (Ok {| out_id := Some (flag_unikid flags);
           out_transaction := id;
           out_confirmations :=
             match finalTransaction with
             | Some t => tx_confirmations t
             | None => 0
             end |}, h3).
Proof.
  intros ts line Hid Hprops Hask Hnonce Htx Htruthy Hsend.
  unfold PropertiesUpdateCommand_do.
  rewrite Hid, bind_lift_Ok, Hprops, bind_lift_Ok.
  rewrite (@bind_run_Ok _ _ _ _ _ _ _ Hask), (@bind_run_Ok _ _ _ _ _ _ _ Hnonce).
  cbv zeta. fold ts. rewrite Htx, Htruthy.
  unfold bind at 1, log, request. fold line.
  rewrite (@bind_run_Ok _ _ _ _ _ _ _ Hsend). reflexivity.
Qed.

(** X15: the vote, once its transaction is composed with an id, hands it
    to the sender; a transaction that the sender did not find ends the
    command with the error that gives its address in the explorer, and a
    transaction that was found gives its confirmations. *)
Theorem AbstractDelegateVoteCreateCommand_do_outcome
        (flags : Flags) (args_id : string) (h h0 h1 h2 h3 : History)
        (delegatePublicKey : string) (passphrases : CryptoAccountPassphrases)
        (nonce id : string) (transactionStruct : ITransactionData)
        (transactionFromNetwork : option Transaction) :
  resolveDelegateWalletPublicKey svc args_id h = (Ok delegatePublicKey, h0) ->
  ask flags true h0 = (Ok passphrases, h1) ->
  next (first passphrases) h1 = (Ok nonce, h2) ->
  createVoteTransaction (getVotes delegatePublicKey) (flag_fee flags)
                        nonce (first passphrases) (second passphrases)
  = Ok transactionStruct ->
  td_id transactionStruct = Some id ->
  JS.truthy id = true ->
  sendAndWaitConfirmationsIfNeeded transactionStruct flags h2
  = (Ok transactionFromNetwork, h3) ->
  vote flags args_id h
  = (match transactionFromNetwork with
     | None =>
         Throw (Error ("Transaction not found yet, the network can be slow. Check this url in a while: "
                       ++ getExplorerUrl ++ "/transaction/" ++ id))
     | Some t =>
         Ok {| out_id := None;
               out_transaction := id;
               out_confirmations := tx_confirmations t |}
     end, h3).
Proof.
  intros Hpk Hask Hnonce Hts Htx Htruthy Hsend.
  unfold AbstractDelegateVoteCreateCommand_do.
  rewrite (@bind_run_Ok _ _ _ _ _ _ _ Hpk), (@bind_run_Ok _ _ _ _ _ _ _ Hask),
    (@bind_run_Ok _ _ _ _ _ _ _ Hnonce).
  rewrite Hts, bind_lift_Ok, Htx, Htruthy.
  rewrite (@bind_run_Ok _ _ _ _ _ _ _ Hsend).
  now destruct transactionFromNetwork.
Qed.

(** X16: the public key that [resolveDelegateWalletPublicKey] returns is
    the one of a wallet that the node reports as a delegate; this wallet is
    the one of the address that the name lookup gave for a delegate written
    [@name], and the one of the owner of the token for a delegate given by
    an id of 64 characters. *)
Theorem resolveDelegateWalletPublicKey_delegate
        (delegateId publicKey : string) (h h' : History) :
  resolveDelegateWalletPublicKey svc delegateId h = (Ok publicKey, h') ->
  exists address h1 w,
    h' = GetWallet address :: h1
    /\ svc_getWallet svc h1 address = Ok (Some w)
    /\ w_isDelegate w = true
    /\ publicKey = w_publicKey w
    /\ ((JS.truthy delegateId && JS.startsWith "@" delegateId = true
         /\ h1 = GetUniknameWalletAddress delegateId :: h
         /\ svc_getUniknameWalletAddress svc h delegateId = Ok address)
        \/ (JS.truthy delegateId && JS.startsWith "@" delegateId = false
            /\ String.length delegateId = 64%nat
            /\ h1 = GetUnikById delegateId :: h
            /\ exists unik, svc_getUnikById svc h delegateId = Ok unik
                            /\ address = unik_ownerId unik)).
Proof.
  unfold resolveDelegateWalletPublicKey. intros Hrun.
  apply bind_Ok_inv in Hrun as (address & h1 & Haddress & Hrun).
  apply bind_Ok_inv in Hrun as (wallet & h2 & Hwallet & Hrun).
  unfold getWallet, request in Hwallet. injection Hwallet as Hwallet <-.
  destruct wallet as [w|]; [|discriminate].
  destruct (w_isDelegate w) eqn:Hd; [|discriminate].
  injection Hrun as <- <-.
  exists address, h1, w. repeat (split; [reflexivity || assumption|]).
  destruct (JS.truthy delegateId && JS.startsWith "@" delegateId) eqn:Ename.
  - left. unfold getUniknameWalletAddress, request in Haddress.
    injection Haddress as Haddress <-. auto.
  - right. apply bind_Ok_inv in Haddress as ([] & h3 & Hformat & Haddress).
    unfold lift in Hformat. injection Hformat as Hformat <-.
    apply bind_Ok_inv in Haddress as (unik & h4 & Hunik & Hret).
    unfold getUnikById, request in Hunik. injection Hunik as Hunik <-.
    injection Hret as <- <-.
    split; [reflexivity|]. split; [now apply checkUnikIdFormat_length|].
    split; [reflexivity|]. now exists unik.
Qed.

End WriteCommands.

(** X14 and X15, on a builder that signs and a sender that finds no
    transaction: the property update returns 0 confirmations, the vote
    throws. *)
Lemma PropertiesUpdateCommand_do_outcome_witness :
  let svc := Doubles.node (fun _ => None) 0 in
  let address := Doubles.address_of Doubles.twelve in
  PropertiesUpdateCommand_do svc Doubles.wallet_of Doubles.address_of false
    Fixtures.lost (fun _ => Ok [])
    (fun _ _ fee nonce _ _ => Fixtures.signed fee nonce)
    (Doubles.single 3 1) []
  = (Ok {| out_id := Some (flag_unikid (Doubles.single 3 1));
           out_transaction := "tx1";
           out_confirmations := 0 |},
     [Log "Binding new property to UNIK."; GetNonce address; GetWallet address]).
Proof.
  intros svc address.
  apply (PropertiesUpdateCommand_do_outcome svc Doubles.wallet_of
           Doubles.address_of false Fixtures.lost (fun _ => Ok [])
           (fun _ _ fee nonce _ _ => Fixtures.signed fee nonce)
           (Doubles.single 3 1) [] [GetWallet address]
           [GetNonce address; GetWallet address]
           [Log "Binding new property to UNIK."; GetNonce address; GetWallet address]
           [] {| first := Doubles.twelve; second := None |} "1" "tx1" None);
    reflexivity.
Defined.

Lemma AbstractDelegateVoteCreateCommand_do_outcome_witness :
  let svc := Doubles.node (fun _ => None) 0 in
  let address := Doubles.address_of Doubles.twelve in
  AbstractDelegateVoteCreateCommand_do svc Doubles.wallet_of Doubles.address_of
    false Fixtures.lost DelegateVoteCreateCommand_getVotes
    (fun _ fee nonce _ _ => Ok (Fixtures.signed fee nonce)) "https://explorer"
    (Doubles.single 3 1) "@bob" []
  = (Throw (Error "Transaction not found yet, the network can be slow. Check this url in a while: https://explorer/transaction/tx1"),
     [GetNonce address; GetWallet address;
      GetWallet "owner"; GetUniknameWalletAddress "@bob"]).
Proof.
  intros svc address.
  apply (AbstractDelegateVoteCreateCommand_do_outcome svc Doubles.wallet_of
           Doubles.address_of false Fixtures.lost
           DelegateVoteCreateCommand_getVotes
           (fun _ fee nonce _ _ => Ok (Fixtures.signed fee nonce))
           "https://explorer" (Doubles.single 3 1) "@bob" []
           [GetWallet "owner"; GetUniknameWalletAddress "@bob"]
           [GetWallet address; GetWallet "owner"; GetUniknameWalletAddress "@bob"]
           [GetNonce address; GetWallet address;
            GetWallet "owner"; GetUniknameWalletAddress "@bob"]
           [GetNonce address; GetWallet address;
            GetWallet "owner"; GetUniknameWalletAddress "@bob"]
           "key of owner" {| first := Doubles.twelve; second := None |}
           "1" "tx1" (Fixtures.signed 100000000 "1") None);
    reflexivity.
Defined.

(** X16, on the delegate [@bob]. *)
Lemma resolveDelegateWalletPublicKey_delegate_witness :
  exists address h1 w,
    [GetWallet "owner"; GetUniknameWalletAddress "@bob"] = GetWallet address :: h1
    /\ svc_getWallet (Doubles.constant 0) h1 address = Ok (Some w)
    /\ w_isDelegate w = true
    /\ "key of owner" = w_publicKey w
    /\ ((JS.truthy "@bob" && JS.startsWith "@" "@bob" = true
         /\ h1 = [GetUniknameWalletAddress "@bob"]
         /\ svc_getUniknameWalletAddress (Doubles.constant 0) [] "@bob" = Ok address)
        \/ (JS.truthy "@bob" && JS.startsWith "@" "@bob" = false
            /\ String.length "@bob" = 64%nat
            /\ h1 = [GetUnikById "@bob"]
            /\ exists unik, svc_getUnikById (Doubles.constant 0) [] "@bob" = Ok unik
                            /\ address = unik_ownerId unik)).
Proof.
  apply (resolveDelegateWalletPublicKey_delegate (Doubles.constant 0)
           "@bob" "key of owner" []
           [GetWallet "owner"; GetUniknameWalletAddress "@bob"]).
  reflexivity.
Defined.

(** ** More on SetPropertiesCommand *)

Lemma count_le_of_adds {A : Type} (p : Event -> bool) (n : nat) (m : M A) :
  adds p n m -> forall h, (count p (snd (m h)) <= n + count p h)%nat.
Proof. intros H h. rewrite (H h). lia. Qed.

Lemma count_le_bind {A B : Type} (p : Event -> bool) (n1 n2 n : nat)
      (m : M A) (k : A -> M B) :
  (forall h, (count p (snd (m h)) <= n1 + count p h)%nat) ->
  (forall a h, (count p (snd (k a h)) <= n2 + count p h)%nat) ->
  (n1 + n2 <= n)%nat ->
  forall h, (count p (snd (bind m k h)) <= n + count p h)%nat.
Proof.
  intros Hm Hk Hn h. unfold bind. specialize (Hm h).
  destruct (m h) as [[e|a] h1]; simpl in *; [lia|].
  specialize (Hk a h1). lia.
Qed.

Lemma count_polls_other (p : Event -> bool) (blockTime : Z) (transactionId : string)
      (k : nat) (h : History) :
  p (GetTransaction transactionId (blockTime * 1000)) = false ->
  count p (polls blockTime transactionId k h) = count p h.
Proof.
  intros Hp. unfold polls, count. induction k as [|k IH]; simpl; [reflexivity|].
  now rewrite Hp.
Qed.

Section Submission.

Variable svc : Services.
Variable getBlockTime getVersion : Z.
Variable createNFTUpdateTransaction :
  string -> Properties -> Z -> Z -> string -> ITransactionData.

Local Abbreviation do :=
  (SetProperties.do svc getBlockTime getVersion createNFTUpdateTransaction).

Lemma wait_sends_nothing (transactionId : string) (numberOfRetry expected : Z) :
  adds isSendTransaction 0
       (waitTransactionConfirmations svc getBlockTime transactionId
                                     numberOfRetry expected).
Proof.
  intros h.
  destruct (wait_bounded_by svc getBlockTime transactionId
              (Z.to_nat numberOfRetry) numberOfRetry expected h eq_refl)
    as (k & _ & ->).
  now apply count_polls_other.
Qed.

Lemma wait_polls_at_most (transactionId : string) (numberOfRetry expected : Z)
      (h : History) :
  (count isGetTransaction
         (snd (waitTransactionConfirmations svc getBlockTime transactionId
                                            numberOfRetry expected h))
   <= Z.to_nat numberOfRetry + 1 + count isGetTransaction h)%nat.
Proof.
  destruct (wait_bounded_by svc getBlockTime transactionId
              (Z.to_nat numberOfRetry) numberOfRetry expected h eq_refl)
    as (k & Hk & ->).
  rewrite count_polls. lia.
Qed.

(** X17: whatever the node and the user answer, [set-properties] submits
    the transaction at most once, and asks at most [--await] + 1 times for
    its confirmations. *)
Theorem do_submits_once (flags : Flags) (h : History) :
  (count isSendTransaction (snd (do flags h)) <= 1 + count isSendTransaction h)%nat
  /\ (count isGetTransaction (snd (do flags h))
      <= Z.to_nat (flag_await flags) + 1 + count isGetTransaction h)%nat.
Proof.
  unfold SetProperties.do, SetProperties.sendTransaction, getPassphraseFromUser, log.
  split; revert h.
  - repeat (apply (count_le_bind isSendTransaction 0 1 1);
            [solve [apply count_le_of_adds; quiet]|intros ?|lia]).
    cbv zeta.
    apply (count_le_bind isSendTransaction 1 0 1);
      [apply count_le_of_adds; now apply adds_request| |lia].
    intros [errors|]; [apply count_le_of_adds; quiet|].
    apply count_le_of_adds.
    apply adds_bind; [apply wait_sends_nothing|]. quiet.
  - repeat (apply (count_le_bind isGetTransaction 0
                      (Z.to_nat (flag_await flags) + 1)
                      (Z.to_nat (flag_await flags) + 1));
            [solve [apply count_le_of_adds; quiet]|intros ?|lia]).
    match goal with
    | |- forall h, (count _ (snd (match ?r with _ => _ end h)) <= _)%nat =>
        destruct r as [errors|]
    end; [intros h; rewrite (adds_throw _ _ h); lia|].
    apply (count_le_bind isGetTransaction (Z.to_nat (flag_await flags) + 1) 0 _);
      [intros h; apply wait_polls_at_most| |lia].
    intros final. apply count_le_of_adds. quiet.
Qed.

Lemma wait_never_found_by (m : nat) :
  forall transactionId numberOfRetry expected h,
    (forall h' timeout, svc_getTransaction svc h' transactionId timeout = Ok None) ->
    Z.to_nat numberOfRetry = m ->
    exists k, (1 <= k <= m + 1)%nat
              /\ waitTransactionConfirmations svc getBlockTime transactionId
                                              numberOfRetry expected h
                 = (Ok None, polls getBlockTime transactionId k h).
Proof.
  induction m as [|m IH]; intros transactionId numberOfRetry expected h Hnone Hm;
    rewrite wait_turn; unfold answer; rewrite Hnone; unfold Ok.
  - assert (E : (numberOfRetry >? 0) = false)
      by (apply not_true_is_false; intros H; apply Z.gtb_lt in H; lia).
    rewrite E, andb_false_r. exists 1%nat. split; [lia|reflexivity].
  - destruct ((confirmationsOf None <? expected) && (numberOfRetry >? 0));
      [|exists 1%nat; split; [lia|reflexivity]].
    destruct (IH transactionId (numberOfRetry - 1) expected
                 (GetTransaction transactionId (getBlockTime * 1000) :: h)
                 Hnone ltac:(lia)) as (k & Hk & Hrun).
    exists (S k). split; [lia|]. rewrite Hrun. now rewrite polls_shift.
Qed.

(** X18: a transaction that the node refuses ends [set-properties] with
    the error that carries the reasons of the node, right after the
    submission: its confirmations are never asked for. *)
Theorem do_rejected (flags : Flags) (h : History) (p errors : string)
        (properties : Properties) :
  flag_confirmations flags < flag_await flags ->
  checkUnikIdFormat (flag_unikid flags) = Ok tt ->
  flag_passphrase flags = Some p ->
  checkPassphraseFormat p = Ok tt ->
  SetProperties.parseProperties (flag_properties flags) = Ok properties ->
  svc_sendTransaction svc h
    (createNFTUpdateTransaction (flag_unikid flags) properties (flag_fee flags)
                                getVersion p)
  = Ok (Some errors) ->
  do flags h
  = (Throw (Error ("Transaction not accepted. Caused by: " ++ errors)),
     SendTransaction
       (createNFTUpdateTransaction (flag_unikid flags) properties (flag_fee flags)
                                   getVersion p) :: h).
Proof.
  intros Hflags Hid Hp Hvalid Hprops Hsend.
  pose proof (checkPassphraseFormat_truthy _ Hvalid) as Htruthy.
  unfold SetProperties.do, SetProperties.checkFlagsConsistency.
  assert (E : (flag_await flags <=? flag_confirmations flags) = false)
    by (apply Z.leb_gt; lia).
  rewrite E, bind_lift_Ok, Hid, bind_lift_Ok, Hp, Htruthy, bind_ret, Hvalid,
    bind_lift_Ok, Hprops, bind_lift_Ok.
  cbv zeta. unfold bind, SetProperties.sendTransaction, request.
  rewrite Hsend. reflexivity.
Qed.

(** X19: when the node accepts the transaction and then never finds it,
    [set-properties] asks for it at most [--await] + 1 times, logs the token
    id and ends with a [TypeError] on the missing transaction instead of a
    result. *)
Theorem do_never_found (flags : Flags) (h : History) (p id : string)
        (properties : Properties) :
  flag_confirmations flags < flag_await flags ->
  checkUnikIdFormat (flag_unikid flags) = Ok tt ->
  flag_passphrase flags = Some p ->
  checkPassphraseFormat p = Ok tt ->
  SetProperties.parseProperties (flag_properties flags) = Ok properties ->
  td_id (createNFTUpdateTransaction (flag_unikid flags) properties (flag_fee flags)
                                    getVersion p) = Some id ->
  svc_sendTransaction svc h
    (createNFTUpdateTransaction (flag_unikid flags) properties (flag_fee flags)
                                getVersion p)
  = Ok None ->
  (forall h' timeout, svc_getTransaction svc h' id timeout = Ok None) ->
  exists k,
    (1 <= k <= Z.to_nat (flag_await flags) + 1)%nat
    /\ do flags h
       = (Throw (TypeError "Cannot read property 'id' of undefined"),
          Log (String "010"%char "unikid:  " ++ flag_unikid flags)
          :: polls getBlockTime id k
               (SendTransaction
                  (createNFTUpdateTransaction (flag_unikid flags) properties
                     (flag_fee flags) getVersion p) :: h)).
Proof.
  intros Hflags Hid Hp Hvalid Hprops Htx Hsend Hnone.
  pose proof (checkPassphraseFormat_truthy _ Hvalid) as Htruthy.
  destruct (wait_never_found_by (Z.to_nat (flag_await flags)) id
              (flag_await flags) (flag_confirmations flags)
              (SendTransaction
                 (createNFTUpdateTransaction (flag_unikid flags) properties
                    (flag_fee flags) getVersion p) :: h) Hnone eq_refl)
    as (k & Hk & Hwait).
  exists k. split; [exact Hk|].
  unfold SetProperties.do, SetProperties.checkFlagsConsistency.
  assert (E : (flag_await flags <=? flag_confirmations flags) = false)
    by (apply Z.leb_gt; lia).
  rewrite E, bind_lift_Ok, Hid, bind_lift_Ok, Hp, Htruthy, bind_ret, Hvalid,
    bind_lift_Ok, Hprops, bind_lift_Ok.
  cbv zeta. rewrite Htx.
  unfold bind at 1, SetProperties.sendTransaction, request. rewrite Hsend.
  unfold Ok at 1. cbv beta iota.
  rewrite (@bind_run_Ok _ _ _ _ _ _ _ Hwait). reflexivity.
Qed.

End Submission.

(** X18, on a node that refuses the transaction for its nonce. *)
Lemma do_rejected_witness :
  SetProperties.do
    (Fixtures.node (fun _ => None) (fun _ => Ok None) (Ok (Some "bad nonce")))
    8 1 (fun _ _ fee _ _ => Fixtures.signed fee "1") (Doubles.single 3 1) []
  = (Throw (Error "Transaction not accepted. Caused by: bad nonce"),
     [SendTransaction (Fixtures.signed 100000000 "1")]).
Proof.
  apply (do_rejected
           (Fixtures.node (fun _ => None) (fun _ => Ok None) (Ok (Some "bad nonce")))
           8 1 (fun _ _ fee _ _ => Fixtures.signed fee "1") (Doubles.single 3 1) []
           Doubles.twelve "bad nonce"
           [("key1", Some "value1"); ("key3", Some EmptyString)]);
    reflexivity.
Defined.

(** X19, on a node that accepts the transaction and never finds it. *)
Lemma do_never_found_witness :
  exists k,
    (1 <= k <= Z.to_nat 3 + 1)%nat
    /\ SetProperties.do
         (Fixtures.node (fun _ => None) (fun _ => Ok None) (Ok None))
         8 1 (fun _ _ fee _ _ => Fixtures.signed fee "1") (Doubles.single 3 1) []
       = (Throw (TypeError "Cannot read property 'id' of undefined"),
          Log (String "010"%char "unikid:  " ++ flag_unikid (Doubles.single 3 1))
          :: polls 8 "tx1" k [SendTransaction (Fixtures.signed 100000000 "1")]).
Proof.
  apply (do_never_found
           (Fixtures.node (fun _ => None) (fun _ => Ok None) (Ok None))
           8 1 (fun _ _ fee _ _ => Fixtures.signed fee "1") (Doubles.single 3 1) []
           Doubles.twelve "tx1"
           [("key1", Some "value1"); ("key3", Some EmptyString)]);
    reflexivity.
Defined.

(** ** The address of a wallet *)

Section WalletAddress.

Variable svc : Services.
Variable api : Api.
Variable isTokenId isPassphrase : string -> bool.
Variable getWalletFromPassphrase : string -> Wallet.
Variable rawKey : string.
Variable ChainContext : Type.
Variable getChainContext : ChainMeta -> string -> string -> ChainContext.

Local Abbreviation informations :=
  (getWalletInformations svc api isTokenId isPassphrase getWalletFromPassphrase
                         rawKey).
Local Abbreviation output := (formatOutput rawKey getChainContext).

(** X20: an id that is not a token id is handled on the spot: nothing is
    requested from the node, whatever the outcome.  A text that is no
    pass phrase is refused without any prompt, and a pass phrase given as
    the id gives the address and the public key of its wallet, without
    chain meta data. *)
Theorem getWalletInformations_passphrase
        (id format : string) (displayChainmeta : bool) (h : History) :
  isTokenId id = false ->
  count isNetwork (snd (informations id format displayChainmeta h))
  = count isNetwork h
  /\ (JS.truthy id = true -> isPassphrase id = false ->
      informations id format displayChainmeta h
      = (Throw (Error "ID argument does not match expected parameter"), h))
  /\ (isPassphrase id = true -> checkPassphraseFormat id = Ok tt ->
      informations id format displayChainmeta h
      = (Ok {| wi_address := w_address (getWalletFromPassphrase id);
               wi_publicKey := Some (w_publicKey (getWalletFromPassphrase id));
               wi_chainMeta := None |}, h)).
Proof.
  intros Htoken. unfold getWalletInformations. rewrite Htoken.
  split; [|split].
  - assert (H : adds isNetwork 0
                     ((if JS.truthy id && negb (isPassphrase id)
                       then throw (Error "ID argument does not match expected parameter")
                       else ret tt);;;
                      passphrase <-
                        (if negb (JS.truthy id)
                         then getPassphraseFromUser svc else ret id);;
                      lift (checkPassphraseFormat passphrase);;;
                      ret {| wi_address := w_address (getWalletFromPassphrase passphrase);
                             wi_publicKey :=
                               Some (w_publicKey (getWalletFromPassphrase passphrase));
                             wi_chainMeta := None |}))
      by (unfold getPassphraseFromUser; quiet).
    apply (H h).
  - intros -> ->. reflexivity.
  - intros Hpass Hvalid.
    rewrite (checkPassphraseFormat_truthy _ Hvalid), Hpass. cbn [negb andb].
    rewrite !bind_ret, Hvalid. reflexivity.
Qed.

(** X21: for a token id the address is the owner of the token.  In the raw
    format the token is the only thing requested and the output is this
    address alone; in the other formats the wallet of the owner is
    requested too, for its public key, and its chain meta data are kept
    only when they were asked for. *)
Theorem getWalletInformations_token
        (id format : string) (displayChainmeta : bool) (h : History) (unik : Unik) :
  isTokenId id = true ->
  api_getUnikById api h id = Ok unik ->
  (format = rawKey ->
   informations id format displayChainmeta h
   = (Ok {| wi_address := unik_ownerId unik;
            wi_publicKey := None;
            wi_chainMeta := None |}, GetUnikById id :: h)
   /\ (forall networkName currentNode,
          output format (unik_ownerId unik) None None networkName currentNode
          = RawAddress ChainContext (unik_ownerId unik)))
  /\ (format <> rawKey ->
      forall w chainmeta,
        api_getWallet api (GetUnikById id :: h) (unik_ownerId unik)
        = Ok (Some (w, chainmeta)) ->
        informations id format displayChainmeta h
        = (Ok {| wi_address := unik_ownerId unik;
                 wi_publicKey := Some (w_publicKey w);
                 wi_chainMeta := if displayChainmeta then chainmeta else None |},
           GetWallet (unik_ownerId unik) :: GetUnikById id :: h)).
Proof.
  intros Htoken Hunik. unfold getWalletInformations, formatOutput.
  rewrite Htoken. unfold bind at 1, request at 1. rewrite Hunik.
  unfold Ok at 1. cbv beta iota zeta.
  split.
  - intros ->. rewrite String.eqb_refl. split; reflexivity.
  - intros Hformat w chainmeta Hwallet.
    destruct (String.eqb_spec format rawKey) as [E|_]; [contradiction|].
    cbn [negb]. unfold bind, request. rewrite Hunik. unfold Ok at 1.
    rewrite Hwallet. reflexivity.
Qed.

End WalletAddress.

(** ** Flags on the command line *)

Lemma append_assoc (s t u : string) : (s ++ t) ++ u = s ++ t ++ u.
Proof. induction s as [|c s IH]; simpl; [reflexivity|now rewrite IH]. Qed.

Lemma prefix_append (p s : string) :
  String.prefix p s = true <-> exists rest, s = p ++ rest.
Proof.
  revert s. induction p as [|c p IH]; intros s.
  - split; [intros _; now exists s|intros _; now destruct s].
  - destruct s as [|d s]; simpl;
      [split; [discriminate|intros [rest H]; discriminate]|].
    destruct (Ascii.ascii_dec c d) as [->|Hd].
    + rewrite IH. split; intros [rest H]; exists rest; [now rewrite H|now injection H].
    + split; [discriminate|]. intros [rest H]. injection H as <- _. contradiction.
Qed.

(** X22: a flag counts as set exactly when some argument of the command
    is [--name], or starts with [--name=], or, for a flag that has a short
    name [c], is [-c] or starts with [-c=]. *)
Theorem isFlagSet_iff (argv : list string) (flagName : string)
        (flagChar : option string) :
  isFlagSet argv flagName flagChar = true
  <-> exists arg,
      In arg argv
      /\ (arg = "--" ++ flagName
          \/ (exists value, arg = "--" ++ flagName ++ "=" ++ value)
          \/ (exists c, flagChar = Some c /\ c <> EmptyString
                        /\ (arg = "-" ++ c
                            \/ exists value, arg = "-" ++ c ++ "=" ++ value))).
Proof.
  unfold isFlagSet, JS.startsWith. rewrite existsb_exists.
  split; intros (arg & Hin & H); exists arg; (split; [exact Hin|]).
  - rewrite !orb_true_iff in H. destruct H as [[H|H]|H].
    + left. now apply String.eqb_eq.
    + right. left. apply prefix_append in H as [value ->].
      exists value. now rewrite !append_assoc.
    + right. right. destruct flagChar as [c|]; [|discriminate].
      apply andb_prop in H as [Hc H]. exists c. split; [reflexivity|].
      split; [intros ->; discriminate|].
      rewrite orb_true_iff in H. destruct H as [H|H].
      * left. now apply String.eqb_eq.
      * right. apply prefix_append in H as [value ->].
        exists value. now rewrite !append_assoc.
  - rewrite !orb_true_iff. destruct H as [->|[(value & ->)|(c & -> & Hc & H)]].
    + left. left. apply String.eqb_refl.
    + left. right. apply prefix_append. exists value.
      now rewrite !append_assoc.
    + right. destruct c as [|d c]; [now destruct Hc|]. cbn [JS.truthy andb].
      rewrite orb_true_iff. destruct H as [->|(value & ->)].
      * left. apply String.eqb_refl.
      * right. apply prefix_append. exists value.
        now rewrite !append_assoc.
Qed.

(** ** Outcomes of the target resolution *)

Section TargetOutcomes.

Variable svc : Services.
Variable isTokenId isDid : string -> bool.

(** X23: what [targetResolve] returns.  For a token id it is the id itself
    with the owner, the chain meta data and the transactions of the token,
    and an error of the node is thrown as it is.  For a name, the error that
    the resolution reports is thrown even when data come with it, a reply
    without error and without data throws a [TypeError], and otherwise the
    resolved id and owner are returned, without transactions. *)
Theorem targetResolve_outcomes (target : string) (h : History) :
  (isTokenId target = true ->
   (forall unik,
       svc_getUnikById svc h target = Ok unik ->
       fst (targetResolve svc isTokenId isDid target h)
       = Ok {| ui_unikid := target;
               ui_ownerAddress := unik_ownerId unik;
               ui_chainmeta := Some (unik_chainmeta unik);
               ui_transactions := Some (unik_transactions unik) |})
   /\ (forall e,
          svc_getUnikById svc h target = Throw e ->
          fst (targetResolve svc isTokenId isDid target h) = Throw e))
  /\ (isTokenId target = false -> isDid target = true ->
      forall resolved,
        svc_resolveUnikName svc h target = Ok resolved ->
        fst (targetResolve svc isTokenId isDid target h)
        = match res_error resolved, res_data resolved with
          | Some e, _ => Throw e
          | None, None =>
              Throw (TypeError "Cannot read property 'unikid' of undefined")
          | None, Some data =>
              Ok {| ui_unikid := rd_unikid data;
                    ui_ownerAddress := rd_ownerAddress data;
                    ui_chainmeta := res_chainmeta resolved;
                    ui_transactions := None |}
          end).
Proof.
  unfold targetResolve, bind, getUnikById, resolveUnikName, request. split.
  - intros ->. split; [intros unik ->|intros e ->]; reflexivity.
  - intros -> -> resolved ->. unfold Ok.
    destruct (res_error resolved); [reflexivity|].
    now destruct (res_data resolved).
Qed.

End TargetOutcomes.

(** ** Runs of the properties above *)

(** X3, on three properties of which the last two have no colon. *)
Lemma parseProperties_outcome_witness :
  (exists ps, SetProperties.parseProperties ["key1:value1"; "key3:"] = Ok ps)
  /\ SetProperties.parseProperties ["key1:value1"; "key2"; "key3"]
     = Throw (Error "Property key2, doesn't contain :").
Proof.
  split.
  - destruct (parseProperties_outcome ["key1:value1"; "key3:"]) as [H _].
    apply H. repeat constructor; discriminate.
  - destruct (parseProperties_outcome ["key1:value1"; "key2"; "key3"]) as [_ H].
    apply (H ["key1:value1"] "key2" ["key3"]).
    + reflexivity.
    + repeat constructor. discriminate.
    + reflexivity.
Defined.

(** X10, on an account that the node does not know. *)
Lemma hasSecondPassphrase_outcomes_witness :
  fst (hasSecondPassphrase
         (Fixtures.node (fun _ => None)
                        (fun _ => Throw (HttpNotFoundError "Not Found")) (Ok None))
         Doubles.address_of true Doubles.twelve [])
  = Ok false.
Proof.
  destruct (hasSecondPassphrase_outcomes
              (Fixtures.node (fun _ => None)
                             (fun _ => Throw (HttpNotFoundError "Not Found")) (Ok None))
              Doubles.address_of true Doubles.twelve []) as (_ & _ & H & _).
  destruct (H "Not Found" eq_refl) as [Hfalse _]. exact Hfalse.
Defined.

(** X13, on a token id of three characters. *)
Lemma PropertiesUpdateCommand_do_validates_first_witness :
  let flags :=
    {| flag_unikid := "abc";
       flag_passphrase := None;
       flag_second_passphrase := None;
       flag_fee := 100000000;
       flag_await := 3;
       flag_confirmations := 1;
       flag_properties := [] |} in
  PropertiesUpdateCommand_do (Doubles.constant 0) Doubles.wallet_of
    Doubles.address_of false Fixtures.lost (fun _ => Ok [])
    (fun _ _ fee nonce _ _ => Fixtures.signed fee nonce) flags []
  = (Throw (Error "Unikid parameter does not match expected format"), []).
Proof.
  intros flags.
  destruct (PropertiesUpdateCommand_do_validates_first (Doubles.constant 0)
              Doubles.wallet_of Doubles.address_of false Fixtures.lost
              (fun _ => Ok []) (fun _ _ fee nonce _ _ => Fixtures.signed fee nonce)
              flags []) as [H _].
  apply H. reflexivity.
Defined.

(** X20, on a pass phrase given as the id, and on a text that is none. *)
Lemma getWalletInformations_passphrase_witness :
  let isPassphrase := fun s => (List.length (JS.split " " s) =? 12)%nat in
  getWalletInformations (Doubles.constant 0) Fixtures.api Doubles.isTokenId
    isPassphrase Doubles.wallet_of "raw" Doubles.twelve "json" true []
  = (Ok {| wi_address := Doubles.address_of Doubles.twelve;
           wi_publicKey := Some ("key of " ++ Doubles.twelve);
           wi_chainMeta := None |}, [])
  /\ getWalletInformations (Doubles.constant 0) Fixtures.api Doubles.isTokenId
       isPassphrase Doubles.wallet_of "raw" "bob" "json" true []
     = (Throw (Error "ID argument does not match expected parameter"), []).
Proof.
  intros isPassphrase. split.
  - destruct (getWalletInformations_passphrase (Doubles.constant 0) Fixtures.api
                Doubles.isTokenId isPassphrase Doubles.wallet_of "raw"
                Doubles.twelve "json" true [] eq_refl) as (_ & _ & H).
    apply H; reflexivity.
  - destruct (getWalletInformations_passphrase (Doubles.constant 0) Fixtures.api
                Doubles.isTokenId isPassphrase Doubles.wallet_of "raw"
                "bob" "json" true [] eq_refl) as (_ & H & _).
    apply H; reflexivity.
Defined.

(** X21, on a token id, in the raw format and in another one. *)
Lemma getWalletInformations_token_witness :
  let id := flag_unikid (Doubles.single 3 1) in
  let informations :=
    getWalletInformations (Doubles.constant 0) Fixtures.api Doubles.isTokenId
      (fun _ => false) Doubles.wallet_of "raw" in
  informations id "raw" true []
  = (Ok {| wi_address := "owner"; wi_publicKey := None; wi_chainMeta := None |},
     [GetUnikById id])
  /\ informations id "json" false []
     = (Ok {| wi_address := "owner";
              wi_publicKey := Some "key of owner";
              wi_chainMeta := None |},
        [GetWallet "owner"; GetUnikById id]).
Proof.
  intros id informations. split.
  - destruct (getWalletInformations_token (Doubles.constant 0) Fixtures.api
                Doubles.isTokenId (fun _ => false) Doubles.wallet_of "raw"
                unit (fun _ _ _ => tt) id "raw" true [] Doubles.unik
                eq_refl eq_refl) as [H _].
    destruct (H eq_refl) as [Hrun _]. exact Hrun.
  - destruct (getWalletInformations_token (Doubles.constant 0) Fixtures.api
                Doubles.isTokenId (fun _ => false) Doubles.wallet_of "raw"
                unit (fun _ _ _ => tt) id "json" false [] Doubles.unik
                eq_refl eq_refl) as [_ H].
    apply (H ltac:(discriminate) (Doubles.wallet_of "owner")
             (Some (unik_chainmeta Doubles.unik))).
    reflexivity.
Defined.

(** X23, on a name that the resolution does not know. *)
Lemma targetResolve_outcomes_witness :
  fst (targetResolve
         (Fixtures.node (fun _ => None) (fun _ => Ok None) (Ok None))
         Doubles.isTokenId Doubles.isDid "@bob" [])
  = Throw (HttpNotFoundError "no such name").
Proof.
  destruct (targetResolve_outcomes
              (Fixtures.node (fun _ => None) (fun _ => Ok None) (Ok None))
              Doubles.isTokenId Doubles.isDid "@bob" []) as [_ H].
  apply (H eq_refl eq_refl
           {| res_error := Some (HttpNotFoundError "no such name");
              res_data := None;
              res_chainmeta := None |}).
  reflexivity.
Defined.

(** ** The three outcomes of the validation of a property key *)

(** X24: the validation of a property key accepts exactly the non empty
    keys made of letters and digits, throws a [TypeError] exactly on the
    non empty keys that hold no letter and no digit, and throws the error
    of a wrong format on every other key: the empty one and those that mix
    letters or digits with other characters. *)
Theorem checkUnikPropertyFormat_outcomes (propertyKey : string) :
  (checkUnikPropertyFormat propertyKey = Ok tt
   <-> propertyKey <> EmptyString /\ string_forallb JS.alnum propertyKey = true)
  /\ (checkUnikPropertyFormat propertyKey
      = Throw (TypeError "Cannot read property '0' of null")
      <-> propertyKey <> EmptyString
          /\ string_forallb (fun c => negb (JS.alnum c)) propertyKey = true)
  /\ (checkUnikPropertyFormat propertyKey
      = Throw (Error ("Property " ++ propertyKey ++ " does not match expected format"))
      <-> propertyKey = EmptyString
          \/ (string_forallb JS.alnum propertyKey = false
              /\ string_forallb (fun c => negb (JS.alnum c)) propertyKey = false)).
Proof.
  rewrite checkUnikPropertyFormat_cases.
  destruct propertyKey as [|c rest].
  - simpl. repeat split; intros; try discriminate; auto;
      try (destruct H as [H _]; now destruct H).
  - cbn [JS.truthy negb].
    assert (Hne : String c rest <> EmptyString) by discriminate.
    assert (Hx : string_forallb JS.alnum (String c rest) = true ->
                 string_forallb (fun c => negb (JS.alnum c)) (String c rest) = false).
    { simpl. destruct (JS.alnum c); [reflexivity|discriminate]. }
    destruct (string_forallb JS.alnum (String c rest)) eqn:Ea.
    + rewrite (Hx eq_refl).
      repeat split; intros; try discriminate; auto;
        try (destruct H as [H|[H _]]; discriminate);
        try (destruct H as [_ H]; discriminate).
    + destruct (string_forallb (fun c => negb (JS.alnum c)) (String c rest)) eqn:En;
        repeat split; intros; try discriminate; auto;
          try (destruct H as [H|[_ H]]; discriminate);
          try (destruct H as [_ H]; discriminate).
Qed.
